(** * The user controller of the caregiving backend

    A shallow embedding of [backend/controllers/userController.ts]: the
    request handlers are functions in a small monad that carries the
    document store, the list of store calls made so far and a thrown
    error, so that [await], [try]/[catch] and early [return] read as in
    the source. *)

From Stdlib Require Import ZArith Ascii String.
From stdpp Require Import base option list strings gmap fin_maps.

Open Scope string_scope.

(** ** JavaScript values

    Request parameters, query arguments and body fields are untyped in the
    source ([//@ts-nocheck], [req: any]); the handlers test them for
    truthiness and compare them with [===].  Numbers are the integral ones,
    which is all the handlers distinguish (zero against the rest). *)

#[warnings="-register-all"]
Inductive Js : Type :=
  | JUndefined
  | JNull
  | JBool (b : bool)
  | JNum (n : Z)
  | JStr (s : string)
  | JArr (items : list Js)
  | JObj (fields : list (string * Js)).

(** [!!v]: what [if (v)] and [!v] test. *)
Definition truthy (v : Js) : bool :=
  match v with
  | JUndefined | JNull => false
  | JBool b => b
  | JNum n => negb (n =? 0)%Z
  | JStr s => negb (s =? "")
  | JArr _ | JObj _ => true
  end.

(** [a === b] on primitives.  Arrays and objects compare by reference; the
    handlers only compare strings and request parameters, and two distinct
    array or object values of a request never share a reference. *)
Definition strictEq (a b : Js) : bool :=
  match a, b with
  | JUndefined, JUndefined => true
  | JNull, JNull => true
  | JBool x, JBool y => Bool.eqb x y
  | JNum x, JNum y => (x =? y)%Z
  | JStr x, JStr y => (x =? y)
  | _, _ => false
  end.
Arguments strictEq : simpl never.

(** [arr.includes(v)] for an array of strings. *)
Definition includes (arr : list string) (v : Js) : bool :=
  existsb (fun s => strictEq (JStr s) v) arr.
Arguments includes : simpl never.

(** [obj.key], [undefined] when the key is absent. *)
Fixpoint getField (key : string) (fields : list (string * Js)) : Js :=
  match fields with
  | [] => JUndefined
  | (k, v) :: rest => if k =? key then v else getField key rest
  end.

Definition prop (key : string) (v : Js) : Js :=
  match v with
  | JObj fields => getField key fields
  | _ => JUndefined
  end.

(** [a || b] on an optional string: an absent or empty string is falsy. *)
Definition strOr (a : option string) (b : string) : string :=
  match a with
  | Some s => if s =? "" then b else s
  | None => b
  end.

(** [a || null] on an optional string. *)
Definition strOrNull (a : option string) : Js :=
  match a with
  | Some s => if s =? "" then JNull else JStr s
  | None => JNull
  end.

(** [arr.find(p)] and [arr.findIndex(p)]; [None] stands for [undefined]
    and for [-1]. *)
Fixpoint find {A} (p : A -> bool) (arr : list A) : option A :=
  match arr with
  | [] => None
  | x :: rest => if p x then Some x else find p rest
  end.

Fixpoint findIndex {A} (p : A -> bool) (arr : list A) : option nat :=
  match arr with
  | [] => None
  | x :: rest => if p x then Some 0 else S <$> findIndex p rest
  end.

(** [s.trim()]: the white space and the line terminators of ECMAScript
    are removed at both ends.  Strings are UTF-8 texts here, so each of
    these code points is the byte sequence that encodes it: U+0009 to
    U+000D and U+0020 on one byte, U+00A0 on two, and on three U+1680,
    U+2000 to U+200A, U+2028, U+2029, U+202F, U+205F, U+3000 and U+FEFF. *)
Definition bytes (codes : list ascii) : string :=
  fold_right String EmptyString codes.

Definition whiteSpace : list string :=
  (map (fun c => bytes [c]) ["009"; "010"; "011"; "012"; "013"; " "]
   ++ [bytes ["194"; "160"]; bytes ["225"; "154"; "128"]]
   ++ map (fun c => bytes ["226"; "128"; c])
          ["128"; "129"; "130"; "131"; "132"; "133"; "134"; "135"; "136";
           "137"; "138"; "168"; "169"; "175"]
   ++ [bytes ["226"; "129"; "159"]; bytes ["227"; "128"; "128"];
       bytes ["239"; "187"; "191"]])%char%list.

(** The rest of [s] after the prefix [p], if [s] starts with it. *)
Fixpoint dropPrefix (p s : string) : option string :=
  match p, s with
  | EmptyString, _ => Some s
  | String a p', String b s' => if Ascii.eqb a b then dropPrefix p' s' else None
  | String _ _, EmptyString => None
  end.

(** The rest of [s] after one of [spaces] at its start. *)
Definition dropOne (spaces : list string) (s : string) : option string :=
  fold_right (fun p found =>
                match dropPrefix p s with
                | Some rest => Some rest
                | None => found
                end) None spaces.

(** Every space dropped is at least one byte, so the length of the text is
    fuel enough. *)
Fixpoint dropSpaces (fuel : nat) (spaces : list string) (s : string) : string :=
  match fuel with
  | 0 => s
  | S fuel' =>
      match dropOne spaces s with
      | Some rest => dropSpaces fuel' spaces rest
      | None => s
      end
  end.

Definition trimStart (s : string) : string :=
  dropSpaces (String.length s) whiteSpace s.

Definition trimEnd (s : string) : string :=
  String.rev (dropSpaces (String.length s) (map String.rev whiteSpace) (String.rev s)).

Definition trim (s : string) : string :=
  trimEnd (trimStart s).

(** ** Documents

    Modelled from the spec: the schemas of the models [User] and [Group]
    are declared in [models/], outside this file.  The records below have
    the fields the data model of the spec lists and the handlers read:
    a group has a name and an ordered list of members [{user, role,
    familialRelation}], the relation being optional; a user has an
    optional primary [groupID], an ordered list [additionalGroups] and
    optional profile fields and notification preferences. *)

(** A stored reference is an [ObjectId]: an object, truthy whenever it is
    present, whose [toString()] is its hexadecimal text. *)
Abbreviation ObjectId := string (only parsing).

(** A document is read together with its [_id]. *)
Abbreviation Doc T := (ObjectId * T)%type (only parsing).
Definition _id {T} (d : Doc T) : ObjectId := d.1.

Record Member : Type := {
  user : ObjectId;
  role : string;
  familialRelation : option string
}.

Record Group : Type := {
  name : string;
  members : list Member
}.

(** An entry of [user.additionalGroups]: in the data model of the spec the
    list is an ordered sequence of [{groupID}], so every entry is an
    object that has its [groupID]. *)
Record AdditionalGroup : Type := {
  entryGroupID : ObjectId
}.

Record Preferences : Type := {
  doNotDisturb : bool;
  newFeed : bool;
  newActivity : bool;
  invites : bool
}.

Record User : Type := {
  email : option string;
  firstName : option string;
  lastName : option string;
  imageURL : option string;
  groupID : option ObjectId;
  additionalGroups : list AdditionalGroup;
  notificationPreferences : option Preferences
}.

Record Db : Type := {
  users : gmap string User;
  groups : gmap string Group
}.

(** ** Requests and responses *)

Record Request : Type := {
  params : gmap string string;
  query : gmap string Js;
  body : gmap string Js
}.

Definition param (req : Request) (key : string) : Js :=
  from_option JStr JUndefined (params req !! key).

Definition queryArg (req : Request) (key : string) : Js :=
  default JUndefined (query req !! key).

Definition field (obj : gmap string Js) (key : string) : Js :=
  default JUndefined (obj !! key).

(** What [res.json] is given: a plain value, a user document, or the
    object [{message, user}] of the onboarding handler. *)
Inductive Body : Type :=
  | Json (v : Js)
  | UserDoc (u : Doc User)
  | MessageAndUser (message : string) (u : Doc User).

Record Response : Type := {
  status : nat;
  json : Body
}.

Definition message (text : string) : Body :=
  Json (JObj [("message", JStr text)]).

Definition prefsJson (p : Preferences) : Js :=
  JObj [("doNotDisturb", JBool (doNotDisturb p));
        ("newFeed", JBool (newFeed p));
        ("newActivity", JBool (newActivity p));
        ("invites", JBool (invites p))].

(** ** The handler monad *)

(** The calls a handler makes on the two models. *)
Inductive Call : Type :=
  | GroupFindById (id : Js)
  | GroupFind (ids : list ObjectId)
  | GroupSave (g : Doc Group)
  | UserFindById (id : Js)
  | UserFind (ids : list ObjectId)
  | UserFindByIdAndUpdate (id : Js) (set : gmap string Js).

Record World : Type := {
  store : Db;
  trace : list Call
}.

Inductive Outcome (A : Type) : Type :=
  | Threw (error : string)
  | Returned (a : A).
Arguments Threw {A} error.
Arguments Returned {A} a.

Definition Async (A : Type) : Type := World -> World * Outcome A.

#[export] Instance Async_ret : MRet Async :=
  fun A a w => (w, Returned a).

#[export] Instance Async_bind : MBind Async :=
  fun A B k m w =>
    match m w with
    | (w', Returned a) => k a w'
    | (w', Threw e) => (w', Threw e)
    end.

Definition throw {A} (error : string) : Async A :=
  fun w => (w, Threw error).

(** [try { body } catch (error) { handler }] *)
Definition tryCatch {A} (body : Async A) (handler : string -> Async A) : Async A :=
  fun w =>
    match body w with
    | (w', Threw e) => handler e w'
    | done => done
    end.

Definition readStore : Async Db :=
  fun w => (w, Returned (store w)).

Definition writeStore (d : Db) : Async unit :=
  fun w => ({| store := d; trace := trace w |}, Returned ()).

Definition logCall (c : Call) : Async unit :=
  fun w => ({| store := store w; trace := (trace w ++ [c])%list |}, Returned ()).

Definition respond (code : nat) (b : Body) : Async Response :=
  mret {| status := code; json := b |}.

(** A handler runs on a store with no call made yet. *)
Definition run {A} (handler : Async A) (d : Db) : World * Outcome A :=
  handler {| store := d; trace := [] |}.

(** ** The persistence layer

    The models [User] and [Group] live outside this file.  Two parts of
    them are not fixed by the controller: how a query value is cast to an
    [ObjectId] (a value that does not cast makes the query reject), and
    what [$set] does to a user document under the schema (casting,
    validators; a rejected update throws). *)

Class Mongoose : Type := {
  castObjectId : Js -> string + ObjectId;
  applySet : gmap string Js -> User -> string + User
}.

Section Controller.

Context `{Mongoose}.

Definition castQueryId (id : Js) : Async ObjectId :=
  match castObjectId id with
  | inl e => throw e
  | inr k => mret k
  end.

(** [Group.findById(id)] *)
Definition Group_findById (id : Js) : Async (option (Doc Group)) :=
  logCall (GroupFindById id);;
  k ← castQueryId id;
  d ← readStore;
  mret ((fun g => (k, g)) <$> groups d !! k).

(** [User.findById(id)]; a [.select(...)] only narrows the fields read. *)
Definition User_findById (id : Js) : Async (option (Doc User)) :=
  logCall (UserFindById id);;
  k ← castQueryId id;
  d ← readStore;
  mret ((fun u => (k, u)) <$> users d !! k).

(** [Model.find({ _id: { $in: ids } })]: the documents whose [_id] is among
    [ids], each once, in the order of the store.  The ids the handlers pass
    are texts of stored [ObjectId]s, which cast back. *)
Definition selectIn {T} (ids : list ObjectId) (m : gmap string T) : list (Doc T) :=
  map_to_list (filter (fun kv => kv.1 ∈ ids) m).

Definition Group_find (ids : list ObjectId) : Async (list (Doc Group)) :=
  logCall (GroupFind ids);;
  d ← readStore;
  mret (selectIn ids (groups d)).

Definition User_find (ids : list ObjectId) : Async (list (Doc User)) :=
  logCall (UserFind ids);;
  d ← readStore;
  mret (selectIn ids (users d)).

(** [User.findByIdAndUpdate(id, { $set: set }, { new: true, runValidators: true })] *)
Definition User_findByIdAndUpdate (id : Js) (set : gmap string Js)
  : Async (option (Doc User)) :=
  logCall (UserFindByIdAndUpdate id set);;
  k ← castQueryId id;
  d ← readStore;
  match users d !! k with
  | None => mret None
  | Some u =>
      match applySet set u with
      | inl e => throw e
      | inr u' =>
          writeStore {| users := <[k := u']> (users d); groups := groups d |};;
          mret (Some (k, u'))
      end
  end.

(** [group.save()] *)
Definition Group_save (g : Doc Group) : Async unit :=
  logCall (GroupSave g);;
  d ← readStore;
  writeStore {| users := users d; groups := <[_id g := g.2]> (groups d) |}.

(** ** The handlers *)

Definition isUserAdminOfGroup (userID groupID : Js) : Async bool :=
  tryCatch
    (group ← Group_findById groupID;
     match group with
     | None => mret false
     | Some g =>
         let adminMember :=
           find (fun member =>
                   strictEq (JStr (user member)) userID && (role member =? "admin"))
                (members g.2) in
         mret (bool_decide (is_Some adminMember))
     end)
    (fun error => mret false).

Definition checkUserAdminStatus (req : Request) : Async Response :=
  tryCatch
    (let userID := param req "userID" in
     let groupID := param req "groupID" in
     if negb (truthy userID) || negb (truthy groupID) then
       respond 400 (message "User ID and Group ID are required")
     else
       (found ← User_findById userID;
        match found with
        | None => respond 404 (message "User not found")
        | Some _ =>
            group ← Group_findById groupID;
            match group with
            | None => respond 404 (message "Group not found")
            | Some g =>
                isAdmin ← isUserAdminOfGroup userID groupID;
                let memberInfo :=
                  find (fun member => strictEq (JStr (user member)) userID)
                       (members g.2) in
                match memberInfo with
                | None =>
                    respond 200
                      (Json (JObj [("isAdmin", JBool false);
                                   ("isMember", JBool false);
                                   ("message", JStr "User is not a member of this group")]))
                | Some m =>
                    respond 200
                      (Json (JObj [("isAdmin", JBool isAdmin);
                                   ("isMember", JBool true);
                                   ("role", JStr (role m));
                                   ("familialRelation", strOrNull (familialRelation m));
                                   ("groupName", JStr (name g.2))]))
                end
            end
        end))
    (fun err => respond 500 (Json (JObj [("error", JStr err)]))).

(** The [catch] block of this handler is empty: on a thrown error no
    response is sent at all, hence the [option]. *)
Definition provideAdditionalUserInfo (req : Request) : Async (option Response) :=
  tryCatch
    (let userID := param req "userID" in
     let firstName := field (body req) "firstName" in
     let lastName := field (body req) "lastName" in
     let dateOfBirth := field (body req) "dateOfBirth" in
     let gender := field (body req) "gender" in
     let weight := field (body req) "weight" in
     let height := field (body req) "height" in
     if negb (truthy firstName) || negb (truthy lastName)
        || negb (truthy dateOfBirth) || negb (truthy gender)
        || negb (truthy weight) || negb (truthy height) then
       r ← respond 400 (message "Please fill out all fields to complete onboarding");
       mret (Some r)
     else
       (updatedUser ←
          User_findByIdAndUpdate userID
            (<["firstName" := firstName]>
               (<["lastName" := lastName]>
                  (<["dateOfBirth" := dateOfBirth]>
                     (<["gender" := gender]>
                        (<["weight" := weight]>
                           (<["height" := height]> ∅))))));
        match updatedUser with
        | None =>
            r ← respond 404 (message "User not found");
            mret (Some r)
        | Some u =>
            r ← respond 200 (MessageAndUser "Additional info saved successfully" u);
            mret (Some r)
        end))
    (fun error => mret None).

(** [user.additionalGroups] is an array of subdocuments, so the tests
    [user.additionalGroups && Array.isArray(...)] hold, and so does the
    guard [group && group.groupID] of the loop: an entry is an object and
    its [groupID] an [ObjectId]. *)
Definition getAllUserGroups (req : Request) : Async Response :=
  tryCatch
    (let userID := param req "userID" in
     found ← User_findById userID;
     match found with
     | None => respond 404 (message "User not found")
     | Some u =>
         let groupIDs : list string := [] in
         let groupIDs :=
           match groupID u.2 with
           | Some primary => (groupIDs ++ [primary])%list
           | None => groupIDs
           end in
         let groupIDs :=
           foldl (fun acc group => (acc ++ [entryGroupID group])%list)
                 groupIDs (additionalGroups u.2) in
         found_groups ← Group_find groupIDs;
         let formattedGroups :=
           map (fun group : Doc Group =>
                  JObj [("id", JStr (_id group)); ("name", JStr (name group.2))])
               found_groups in
         respond 200
           (Json (JObj [("groupIDs", JArr (map JStr groupIDs));
                        ("groups", JArr formattedGroups)]))
     end)
    (fun error =>
       respond 500
         (Json (JObj [("message", JStr "Failed to fetch user groups");
                      ("error", JStr error)]))).

Definition getAllGroups (req : Request) : Async Response :=
  tryCatch
    (let userID := param req "userID" in
     if negb (truthy userID) then
       respond 400 (message "User ID is required")
     else
       (found ← User_findById userID;
        match found with
        | None => respond 404 (message "User not found")
        | Some u =>
            let groupIDs : list Js := [] in
            let groupIDs :=
              match groupID u.2 with
              | Some primary => (groupIDs ++ [JStr primary])%list
              | None => groupIDs
              end in
            let hasAdditionalGroups :=
              bool_decide (0 < length (additionalGroups u.2)) in
            let groupIDs :=
              if hasAdditionalGroups then
                let additionalGroupIDs :=
                  map (fun group => JStr (entryGroupID group))
                      (additionalGroups u.2) in
                (groupIDs ++ additionalGroupIDs)%list
              else groupIDs in
            respond 200
              (Json (JObj [("message", JStr "User groups retrieved successfully");
                           ("userID", userID);
                           ("groupIDs", JArr groupIDs);
                           ("totalGroups", JNum (Z.of_nat (length groupIDs)));
                           ("hasAdditionalGroups", JBool hasAdditionalGroups)]))
        end))
    (fun err => respond 500 (Json (JObj [("error", JStr err)]))).

Definition updateUser (req : Request) : Async Response :=
  tryCatch
    (let userId := param req "userID" in
     let updates := body req in
     let updates :=
       if truthy (field updates "email") then delete "email" updates else updates in
     updatedUser ← User_findByIdAndUpdate userId updates;
     match updatedUser with
     | None => respond 404 (message "User not found")
     | Some u => respond 200 (UserDoc u)
     end)
    (fun err => respond 500 (Json (JObj [("error", JStr err)]))).

(** [!user || !user.groupID] is one test on the optional primary group of
    the optional user; [group.members] is an array, hence truthy. *)
Definition getFamilyMembers (req : Request) : Async Response :=
  tryCatch
    (let userID := param req "userID" in
     let requestedGroupID := queryArg req "groupID" in
     found ← User_findById userID;
     match found ≫= (fun u => groupID u.2) with
     | None => respond 404 (message "User or group not found")
     | Some primary =>
         let targetGroupID :=
           if truthy requestedGroupID then requestedGroupID else JStr primary in
         group ← Group_findById targetGroupID;
         match group with
         | None => respond 404 (message "Group not found or has no members")
         | Some g =>
             let allMembers := members g.2 in
             let memberUserIDs := map user allMembers in
             found_users ← User_find memberUserIDs;
             let userMap : gmap string (Doc User) :=
               foldl (fun m u => <[_id u := u]> m) ∅ found_users in
             let familyMembers :=
               map (fun member =>
                      let userInfo := userMap !! user member in
                      JObj [("userID", JStr (user member));
                            ("fullName",
                             JStr match userInfo with
                                  | Some info =>
                                      trim (strOr (firstName info.2) "" ++ " "
                                            ++ strOr (lastName info.2) "")
                                  | None => ""
                                  end);
                            ("imageURL",
                             match userInfo with
                             | Some info => strOrNull (imageURL info.2)
                             | None => JNull
                             end);
                            ("role", JStr (role member));
                            ("familialRelation", strOrNull (familialRelation member))])
                   allMembers in
             respond 200 (Json (JArr familyMembers))
         end
     end)
    (fun error =>
       respond 500
         (Json (JObj [("message", JStr "Internal server error");
                      ("error", JStr error)]))).

Definition validRoles : list string := ["admin"; "caregiver"; "carereceiver"].

(** The text of a value known to be a string. *)
Definition stringOf (v : Js) : string :=
  match v with
  | JStr s => s
  | _ => ""
  end.

Definition setRole (r : string) (m : Member) : Member :=
  {| user := user m; role := r; familialRelation := familialRelation m |}.

(** [group.members[targetMemberIndex].role = role] followed by
    [group.save()] writes the group back under its [_id]. *)
Definition updateUserRole (req : Request) : Async Response :=
  tryCatch
    (let userID := param req "userID" in
     let targetUserID := param req "targetUserID" in
     let role := field (body req) "role" in
     let groupID := field (body req) "groupID" in
     if negb (truthy userID) || negb (truthy targetUserID)
        || negb (truthy role) || negb (truthy groupID) then
       respond 400 (message "User ID, target user ID, role, and group ID are required")
     else if negb (includes validRoles role) then
       respond 400 (message "Invalid role. Must be admin, caregiver, or carereceiver")
     else
       (isAdmin ← isUserAdminOfGroup userID groupID;
        if negb isAdmin then
          respond 403 (message "Only group admins can update user roles")
        else
          (group ← Group_findById groupID;
           match group with
           | None => respond 404 (message "Group not found")
           | Some g =>
               let targetMemberIndex :=
                 findIndex (fun member => strictEq (JStr (user member)) targetUserID)
                           (members g.2) in
               match targetMemberIndex with
               | None => respond 404 (message "Target user is not a member of this group")
               | Some i =>
                   if strictEq userID targetUserID then
                     respond 400 (message "Cannot change your own role")
                   else
                     (Group_save
                        (_id g,
                         {| name := name g.2;
                            members := alter (setRole (stringOf role)) i (members g.2) |});;
                      respond 200
                        (Json (JObj [("message", JStr "User role updated successfully");
                                     ("updatedMember",
                                      JObj [("userID", targetUserID);
                                            ("role", role);
                                            ("groupID", groupID)])])))
               end
           end)))
    (fun error =>
       respond 500
         (Json (JObj [("message", JStr "Internal server error");
                      ("error", JStr error)]))).

Definition defaultPreferences : Preferences :=
  {| doNotDisturb := false; newFeed := true; newActivity := true; invites := true |}.

Definition getNotificationPreferences (req : Request) : Async Response :=
  tryCatch
    (let userID := param req "userID" in
     found ← User_findById userID;
     match found with
     | None => respond 404 (message "User not found")
     | Some u =>
         let preferences :=
           default defaultPreferences (notificationPreferences u.2) in
         respond 200 (Json (prefsJson preferences))
     end)
    (fun error =>
       respond 500
         (Json (JObj [("message", JStr "Failed to fetch notification preferences");
                      ("error", JStr error)]))).

(** ** The other handlers on users and groups *)

(** [User.findByIdAndDelete(id)]: the document removed, if there was one.
    The trace lists the lookups and updates of the two models; a deletion
    shows in the store only. *)
Definition User_findByIdAndDelete (id : Js) : Async (option (Doc User)) :=
  k ← castQueryId id;
  d ← readStore;
  match users d !! k with
  | None => mret None
  | Some u =>
      writeStore {| users := delete k (users d); groups := groups d |};;
      mret (Some (k, u))
  end.

Definition getUserGroup (req : Request) : Async Response :=
  tryCatch
    (let userID := param req "userID" in
     found ← User_findById userID;
     match found with
     | None => respond 404 (message "User not found")
     | Some u =>
         respond 200
           (Json (JObj [("groupID", from_option JStr JUndefined (groupID u.2))]))
     end)
    (fun error =>
       respond 500
         (Json (JObj [("message", JStr "Failed to fetch user group");
                      ("error", JStr error)]))).

Definition getUser (req : Request) : Async Response :=
  tryCatch
    (let userID := param req "userID" in
     found ← User_findById userID;
     match found with
     | None => respond 404 (message "User not found")
     | Some u => respond 200 (UserDoc u)
     end)
    (fun error => respond 500 (message "Internal server error")).

Definition deleteUser (req : Request) : Async Response :=
  tryCatch
    (let userID := param req "userID" in
     deletedUser ← User_findByIdAndDelete userID;
     match deletedUser with
     | None => respond 404 (message "User not found")
     | Some _ => respond 200 (message "User deleted successfully")
     end)
    (fun err => respond 500 (Json (JObj [("error", JStr err)]))).

Definition getUserInfo (req : Request) : Async Response :=
  tryCatch
    (let userID := param req "userID" in
     found ← User_findById userID;
     match found with
     | None => respond 404 (message "User not found")
     | Some u =>
         let fullName :=
           trim (strOr (firstName u.2) "" ++ " " ++ strOr (lastName u.2) "") in
         let imageURL := strOrNull (imageURL u.2) in
         respond 200 (Json (JObj [("fullName", JStr fullName); ("imageURL", imageURL)]))
     end)
    (fun error =>
       respond 500
         (Json (JObj [("message", JStr "Internal server error");
                      ("error", JStr error)]))).

Definition getCurrentUserFamilyRole (req : Request) : Async Response :=
  tryCatch
    (let userID := param req "userID" in
     let requestedGroupID := queryArg req "groupID" in
     found ← User_findById userID;
     match found ≫= (fun u => groupID u.2) with
     | None => respond 404 (message "User or group not found")
     | Some primary =>
         let targetGroupID :=
           if truthy requestedGroupID then requestedGroupID else JStr primary in
         group ← Group_findById targetGroupID;
         match group with
         | None => respond 404 (message "Group not found or has no members")
         | Some g =>
             let currentUserMember :=
               find (fun member => strictEq (JStr (user member)) userID)
                    (members g.2) in
             match currentUserMember with
             | None => respond 404 (message "User is not a member of this group")
             | Some m =>
                 respond 200
                   (Json (JObj [("role", JStr (role m)); ("groupID", targetGroupID)]))
             end
         end
     end)
    (fun error =>
       respond 500
         (Json (JObj [("message", JStr "Internal server error");
                      ("error", JStr error)]))).

(** [typeof v === 'boolean'] *)
Definition isBoolean (v : Js) : bool :=
  match v with
  | JBool _ => true
  | _ => false
  end.

Definition updateNotificationPreferences (req : Request) : Async Response :=
  tryCatch
    (let userID := param req "userID" in
     let doNotDisturb := field (body req) "doNotDisturb" in
     let newFeed := field (body req) "newFeed" in
     let newActivity := field (body req) "newActivity" in
     let invites := field (body req) "invites" in
     if negb (isBoolean doNotDisturb) || negb (isBoolean newFeed)
        || negb (isBoolean newActivity) || negb (isBoolean invites) then
       respond 400
         (message "Invalid preferences format. All preference values must be boolean.")
     else
       (updatedUser ←
          User_findByIdAndUpdate userID
            {[ "notificationPreferences" :=
                 JObj [("doNotDisturb", doNotDisturb); ("newFeed", newFeed);
                       ("newActivity", newActivity); ("invites", invites)] ]};
        match updatedUser with
        | None => respond 404 (message "User not found")
        | Some u =>
            respond 200
              (Json (JObj [("message",
                            JStr "Notification preferences updated successfully");
                           ("preferences",
                            from_option prefsJson JUndefined
                              (notificationPreferences u.2))]))
        end))
    (fun error =>
       respond 500
         (Json (JObj [("message", JStr "Failed to update notification preferences");
                      ("error", JStr error)]))).

(** ** Reading a run *)

(** What [Group.findById(id)] and [User.findById(id)] give on a store. *)
Definition groupLookup (d : Db) (id : Js) : Outcome (option (Doc Group)) :=
  (run (Group_findById id) d).2.

Definition userLookup (d : Db) (id : Js) : Outcome (option (Doc User)) :=
  (run (User_findById id) d).2.

(** The roster entry [getFamilyMembers] builds for a member, read with the
    user store in place of the lookup map the handler fills from it. *)
Definition rosterEntry (us : gmap string User) (member : Member) : Js :=
  let userInfo := us !! user member in
  JObj [("userID", JStr (user member));
        ("fullName",
         JStr match userInfo with
              | Some info =>
                  trim (strOr (firstName info) "" ++ " " ++ strOr (lastName info) "")
              | None => ""
              end);
        ("imageURL",
         match userInfo with
         | Some info => strOrNull (imageURL info)
         | None => JNull
         end);
        ("role", JStr (role member));
        ("familialRelation", strOrNull (familialRelation member))].

(** Whether a member list has an entry of [userID] with role admin: the scan
    of [isUserAdminOfGroup]. *)
Definition hasAdminEntry (userID : Js) (ms : list Member) : bool :=
  bool_decide (is_Some
    (find (fun member =>
             strictEq (JStr (user member)) userID && (role member =? "admin")) ms)).

End Controller.

(** ** A store to run the handlers on

    Every non-empty string is the text of an id; [$set] writes the three
    name and image paths and the email when the payload carries a string
    for them, and clears them on [null]. *)

Definition plainCast (v : Js) : string + ObjectId :=
  match v with
  | JStr s => if s =? "" then inl "Cast to ObjectId failed" else inr s
  | _ => inl "Cast to ObjectId failed"
  end.

Definition setPath (old : option string) (v : option Js) : option string :=
  match v with
  | Some (JStr s) => Some s
  | Some JNull => None
  | _ => old
  end.

Definition plainSet (set : gmap string Js) (u : User) : string + User :=
  inr {| email := setPath (email u) (set !! "email");
         firstName := setPath (firstName u) (set !! "firstName");
         lastName := setPath (lastName u) (set !! "lastName");
         imageURL := setPath (imageURL u) (set !! "imageURL");
         groupID := groupID u;
         additionalGroups := additionalGroups u;
         notificationPreferences := notificationPreferences u |}.

Definition plainStore : Mongoose :=
  {| castObjectId := plainCast; applySet := plainSet |}.

Definition request (ps : list (string * string)) (q b : list (string * Js)) : Request :=
  {| params := list_to_map ps; query := list_to_map q; body := list_to_map b |}.

Definition alice : User :=
  {| email := Some "alice@example.org"; firstName := Some "Alice";
     lastName := Some "Ng"; imageURL := None; groupID := Some "g1";
     additionalGroups := [ {| entryGroupID := "g2" |};
                           {| entryGroupID := "g1" |} ];
     notificationPreferences := None |}.

Definition bob : User :=
  {| email := Some "bob@example.org"; firstName := Some "Bob";
     lastName := None; imageURL := Some "bob.png"; groupID := Some "g1";
     additionalGroups := []; notificationPreferences := None |}.

Definition carol : User :=
  {| email := Some "carol@example.org"; firstName := None;
     lastName := None; imageURL := None; groupID := None;
     additionalGroups := []; notificationPreferences := None |}.

Definition family : Group :=
  {| name := "Family";
     members := [ {| user := "u1"; role := "admin"; familialRelation := Some "mother" |};
                  {| user := "u2"; role := "caregiver"; familialRelation := Some "" |};
                  {| user := "u9"; role := "carereceiver"; familialRelation := None |} ] |}.

Definition friends : Group :=
  {| name := "Friends";
     members := [ {| user := "u3"; role := "admin"; familialRelation := None |} ] |}.

Definition sampleDb : Db :=
  {| users := list_to_map [("u1", alice); ("u2", bob); ("u3", carol)];
     groups := list_to_map [("g1", family); ("g2", friends)] |}.

(** The admin [u1] names herself as the target. *)
Definition selfAdminRequest : Request :=
  request [("userID", "u1"); ("targetUserID", "u1")] []
          [("role", JStr "caregiver"); ("groupID", JStr "g1")].

(** The caregiver [u2] names himself as the target. *)
Definition selfMemberRequest : Request :=
  request [("userID", "u2"); ("targetUserID", "u2")] []
          [("role", JStr "admin"); ("groupID", JStr "g1")].

Definition badRoleRequest : Request :=
  request [("userID", "u1"); ("targetUserID", "u2")] []
          [("role", JStr "owner"); ("groupID", JStr "g1")].

Definition emptyEmailUpdate : Request :=
  request [("userID", "u1")] [] [("email", JStr ""); ("name", JStr "Bob")].

Definition rosterRequest : Request :=
  request [("userID", "u1")] [] [].

Definition overrideRequest : Request :=
  request [("userID", "u1")] [("groupID", JStr "g2")] [].

Definition noGroupRequest : Request :=
  request [("userID", "u3")] [("groupID", JStr "g1")] [].

Definition zeroWeightRequest : Request :=
  request [("userID", "u1")] []
          [("firstName", JStr "Alice"); ("lastName", JStr "Ng");
           ("dateOfBirth", JStr "1980-01-01"); ("gender", JStr "f");
           ("weight", JNum 0); ("height", JNum 170)].

Definition outsiderRequest : Request :=
  request [("userID", "u3"); ("groupID", "g1")] [] [].

(** A second store, whose [$set] also writes the notification
    preferences when the payload carries the four flags as booleans, and
    rejects them otherwise. *)
Definition prefsSet (set : gmap string Js) (u : User) : string + User :=
  match set !! "notificationPreferences" with
  | None => plainSet set u
  | Some v =>
      match prop "doNotDisturb" v, prop "newFeed" v,
            prop "newActivity" v, prop "invites" v with
      | JBool a, JBool b, JBool c, JBool e =>
          inr {| email := email u; firstName := firstName u;
                 lastName := lastName u; imageURL := imageURL u;
                 groupID := groupID u; additionalGroups := additionalGroups u;
                 notificationPreferences :=
                   Some {| doNotDisturb := a; newFeed := b;
                           newActivity := c; invites := e |} |}
      | _, _, _, _ => inl "Validation failed"
      end
  end.

Definition prefsStore : Mongoose :=
  {| castObjectId := plainCast; applySet := prefsSet |}.

(** The admin [u1] makes [u2] an admin of the family. *)
Definition promoteRequest : Request :=
  request [("userID", "u1"); ("targetUserID", "u2")] []
          [("role", JStr "admin"); ("groupID", JStr "g1")].

Definition noSuchGroupRequest : Request :=
  request [("userID", "u1"); ("targetUserID", "u2")] []
          [("role", JStr "admin"); ("groupID", JStr "g9")].

Definition bobRequest : Request :=
  request [("userID", "u2")] [] [].

Definition bobStatusRequest : Request :=
  request [("userID", "u2"); ("groupID", "g1")] [] [].

Definition aliceStatusRequest : Request :=
  request [("userID", "u1"); ("groupID", "g1")] [] [].

Definition bobOverrideRequest : Request :=
  request [("userID", "u2")] [("groupID", JStr "g2")] [].

(** A complete onboarding body with an extra field, and no user id. *)
Definition onboardingRequest : Request :=
  request [] []
          [("firstName", JStr "Alice"); ("lastName", JStr "Ng");
           ("dateOfBirth", JStr "1980-01-01"); ("gender", JStr "f");
           ("weight", JNum 60); ("height", JNum 170);
           ("email", JStr "other@example.org")].

Definition renameRequest : Request :=
  request [("userID", "u2")] [] [("firstName", JStr "Robert")].

Definition textFlagRequest : Request :=
  request [("userID", "u1")] []
          [("doNotDisturb", JStr "true"); ("newFeed", JBool true);
           ("newActivity", JBool true); ("invites", JBool true)].

Definition quietRequest : Request :=
  request [("userID", "u1")] []
          [("doNotDisturb", JBool true); ("newFeed", JBool false);
           ("newActivity", JBool true); ("invites", JBool false)].

(** * Properties *)

(** ** Values *)

Lemma strictEq_JStr (s : string) (v : Js) :
  strictEq (JStr s) v = true <-> JStr s = v.
Proof.
  destruct v; simpl; split; try discriminate.
  - intros Heq. apply String.eqb_eq in Heq. by subst.
  - intros [= ->]. apply String.eqb_refl.
Qed.

Lemma find_is_Some {A} (p : A -> bool) (arr : list A) :
  is_Some (find p arr) <-> exists x, x ∈ arr /\ p x = true.
Proof.
  induction arr as [|a arr IH]; simpl.
  - split; [intros [? [=]] | intros (x & Hin & _); by apply elem_of_nil in Hin].
  - destruct (p a) eqn:Hpa.
    + split; [intros _; exists a; split; [left | done] | eauto].
    + rewrite IH. split; intros (x & Hin & Hx).
      * exists x. split; [by right | done].
      * apply elem_of_cons in Hin as [-> | Hin]; [congruence | eauto].
Qed.

Lemma find_None {A} (p : A -> bool) (arr : list A) :
  find p arr = None <-> forall x, x ∈ arr -> p x = false.
Proof.
  induction arr as [|a arr IH]; simpl.
  - split; [intros _ x Hin; by apply elem_of_nil in Hin | done].
  - destruct (p a) eqn:Hpa.
    + split; [discriminate | intros Hall].
      specialize (Hall a (list_elem_of_here _ _)). congruence.
    + rewrite IH. split; intros Hall x Hin.
      * apply elem_of_cons in Hin as [-> | Hin]; [done | by apply Hall].
      * apply Hall. by right.
Qed.

Lemma findIndex_is_Some {A} (p : A -> bool) (arr : list A) :
  is_Some (findIndex p arr) <-> is_Some (find p arr).
Proof.
  induction arr as [|a arr IH]; simpl; [done|].
  destruct (p a); [split; eauto|].
  rewrite <- IH. destruct (findIndex p arr); simpl; split; intros [? ?]; eauto; done.
Qed.

Section Properties.

Context `{Mongoose}.

Ltac async :=
  unfold run, tryCatch, Group_findById, User_findById, Group_find, User_find,
    User_findByIdAndUpdate, Group_save, castQueryId, logCall, readStore,
    writeStore, respond, throw, mbind, mret, Async_bind, Async_ret in *;
  simpl in *.

Lemma Group_findById_run (id : Js) (w : World) :
  Group_findById id w =
    ({| store := store w; trace := (trace w ++ [GroupFindById id])%list |},
     match castObjectId id with
     | inl e => Threw e
     | inr k => Returned ((fun g => (k, g)) <$> groups (store w) !! k)
     end).
Proof. async. by destruct (castObjectId id). Qed.

Lemma User_findById_run (id : Js) (w : World) :
  User_findById id w =
    ({| store := store w; trace := (trace w ++ [UserFindById id])%list |},
     match castObjectId id with
     | inl e => Threw e
     | inr k => Returned ((fun u => (k, u)) <$> users (store w) !! k)
     end).
Proof. async. by destruct (castObjectId id). Qed.

Lemma groupLookup_eq (d : Db) (id : Js) :
  groupLookup d id =
    match castObjectId id with
    | inl e => Threw e
    | inr k => Returned ((fun g => (k, g)) <$> groups d !! k)
    end.
Proof. unfold groupLookup, run. by rewrite Group_findById_run. Qed.

Lemma userLookup_eq (d : Db) (id : Js) :
  userLookup d id =
    match castObjectId id with
    | inl e => Threw e
    | inr k => Returned ((fun u => (k, u)) <$> users d !! k)
    end.
Proof. unfold userLookup, run. by rewrite User_findById_run. Qed.

(** [isUserAdminOfGroup] always returns, makes one lookup and leaves the
    store as it was. *)
Lemma isUserAdminOfGroup_run (userID groupID : Js) (w : World) :
  isUserAdminOfGroup userID groupID w =
    ({| store := store w; trace := (trace w ++ [GroupFindById groupID])%list |},
     Returned
       match castObjectId groupID with
       | inl _ => false
       | inr k =>
           match groups (store w) !! k with
           | None => false
           | Some g =>
               bool_decide (is_Some
                 (find (fun member =>
                          strictEq (JStr (user member)) userID
                          && (role member =? "admin"))
                       (members g)))
           end
       end).
Proof.
  unfold isUserAdminOfGroup, tryCatch, mbind, Async_bind.
  rewrite Group_findById_run.
  destruct (castObjectId groupID) as [e|k]; [done|].
  by destruct (groups (store w) !! k).
Qed.

(** C1. [isUserAdminOfGroup(U, G)] returns true exactly when the lookup of
    [G] gives a group one of whose members has user reference [U] and role
    ["admin"]; when the group does not exist, and when the lookup throws,
    it returns false. *)
Theorem isUserAdminOfGroup_iff (d : Db) (U G : Js) :
  ((run (isUserAdminOfGroup U G) d).2 = Returned true <->
     exists g, groupLookup d G = Returned (Some g) /\
       exists m, m ∈ members g.2 /\ JStr (user m) = U /\ role m = "admin")
  /\ (groupLookup d G = Returned None ->
        (run (isUserAdminOfGroup U G) d).2 = Returned false)
  /\ (forall e, groupLookup d G = Threw e ->
        (run (isUserAdminOfGroup U G) d).2 = Returned false).
Proof.
  unfold groupLookup, run.
  rewrite isUserAdminOfGroup_run, Group_findById_run. simpl.
  destruct (castObjectId G) as [e|k]; simpl.
  - split; [|done]. split; [done|]. by intros (g & [=] & _).
  - destruct (groups d !! k) as [g|] eqn:Hg; simpl.
    + split; [|split; [done | by intros e [=]]].
      split.
      * intros [= Hb]. apply bool_decide_eq_true in Hb.
        apply find_is_Some in Hb as (m & Hin & Hm).
        apply andb_true_iff in Hm as [Hu Hr].
        apply strictEq_JStr in Hu. apply String.eqb_eq in Hr.
        exists (k, g). split; [done|]. by exists m.
      * intros (g' & [= <-] & m & Hin & Hu & Hr). simpl in Hin.
        f_equal. apply bool_decide_eq_true. apply find_is_Some.
        exists m. split; [done|]. apply andb_true_iff. split.
        -- by apply strictEq_JStr.
        -- by apply String.eqb_eq.
    + split; [|done]. split; [done|]. by intros (g & [=] & _).
Qed.

(** C7. With the four inputs present, a role outside admin, caregiver and
    carereceiver is answered 400 with no call made on the store: the admin
    check, which looks the group up, has not run. *)
Theorem updateUserRole_invalid_role (d : Db) (req : Request) :
  truthy (param req "userID") = true ->
  truthy (param req "targetUserID") = true ->
  truthy (field (body req) "role") = true ->
  truthy (field (body req) "groupID") = true ->
  includes validRoles (field (body req) "role") = false ->
  run (updateUserRole req) d =
    ({| store := d; trace := [] |},
     Returned {| status := 400;
                 json := message "Invalid role. Must be admin, caregiver, or carereceiver" |}).
Proof.
  intros Hu Ht Hr Hg Hrole.
  unfold updateUserRole, run, tryCatch.
  by rewrite Hu, Ht, Hr, Hg, Hrole.
Qed.

(** C8. A user that exists and has no stored notification preferences is
    answered 200 with the default bag. *)
Theorem getNotificationPreferences_default (d : Db) (req : Request) (u : Doc User) :
  userLookup d (param req "userID") = Returned (Some u) ->
  notificationPreferences u.2 = None ->
  (run (getNotificationPreferences req) d).2 =
    Returned {| status := 200;
                json := Json (JObj [("doNotDisturb", JBool false);
                                    ("newFeed", JBool true);
                                    ("newActivity", JBool true);
                                    ("invites", JBool true)]) |}.
Proof.
  unfold userLookup, run, getNotificationPreferences, tryCatch, mbind, Async_bind.
  rewrite User_findById_run. simpl.
  destruct (castObjectId (param req "userID")) as [e|k]; [done|].
  intros [= Hu] Hp. rewrite Hu. simpl. by rewrite Hp.
Qed.

(** The six onboarding fields, as the handler reads them. *)
Lemma provideAdditionalUserInfo_falsy (d : Db) (req : Request) (key : string) :
  key ∈ ["firstName"; "lastName"; "dateOfBirth"; "gender"; "weight"; "height"] ->
  truthy (field (body req) key) = false ->
  run (provideAdditionalUserInfo req) d =
    ({| store := d; trace := [] |},
     Returned (Some {| status := 400;
                       json := message "Please fill out all fields to complete onboarding" |})).
Proof.
  intros Hkey Hfalsy.
  unfold provideAdditionalUserInfo, run, tryCatch.
  repeat (apply elem_of_cons in Hkey as [-> | Hkey]);
    [ .. | by apply elem_of_nil in Hkey ];
    rewrite Hfalsy; simpl; rewrite ?orb_true_r; done.
Qed.

(** C9. The required-field check is on truthiness: a request whose weight
    or height is the number 0, or one of whose six fields is the empty
    string, is answered 400 with the onboarding message, and no update is
    made (no call on the store, the store as it was). *)
Theorem provideAdditionalUserInfo_truthiness (d : Db) (req : Request) :
  field (body req) "weight" = JNum 0
  \/ field (body req) "height" = JNum 0
  \/ (exists key,
        key ∈ ["firstName"; "lastName"; "dateOfBirth"; "gender"; "weight"; "height"]
        /\ field (body req) key = JStr "") ->
  run (provideAdditionalUserInfo req) d =
    ({| store := d; trace := [] |},
     Returned (Some {| status := 400;
                       json := message "Please fill out all fields to complete onboarding" |})).
Proof.
  intros [Hw | [Hh | (key & Hkey & Hempty)]].
  - apply provideAdditionalUserInfo_falsy with (key := "weight").
    + repeat constructor.
    + by rewrite Hw.
  - apply provideAdditionalUserInfo_falsy with (key := "height").
    + repeat constructor.
    + by rewrite Hh.
  - apply provideAdditionalUserInfo_falsy with (key := key); [done|].
    by rewrite Hempty.
Qed.

(** C10. When the user and the group both exist and no member entry of the
    group refers to the user, the answer is 200 with [isAdmin] and
    [isMember] false and the not-a-member message. *)
Theorem checkUserAdminStatus_not_member
    (d : Db) (req : Request) (u : Doc User) (g : Doc Group) :
  truthy (param req "userID") = true ->
  truthy (param req "groupID") = true ->
  userLookup d (param req "userID") = Returned (Some u) ->
  groupLookup d (param req "groupID") = Returned (Some g) ->
  (forall m, m ∈ members g.2 -> JStr (user m) <> param req "userID") ->
  (run (checkUserAdminStatus req) d).2 =
    Returned {| status := 200;
                json := Json (JObj [("isAdmin", JBool false);
                                    ("isMember", JBool false);
                                    ("message", JStr "User is not a member of this group")]) |}.
Proof.
  intros Hu Hg Huser Hgroup Hnot.
  unfold userLookup, groupLookup, run in *.
  rewrite User_findById_run in Huser. rewrite Group_findById_run in Hgroup.
  simpl in *.
  unfold checkUserAdminStatus, tryCatch, mbind, Async_bind.
  rewrite Hu, Hg. simpl.
  rewrite User_findById_run. simpl.
  destruct (castObjectId (param req "userID")) as [e|ku]; [done|].
  injection Huser as Huser. rewrite Huser.
  rewrite Group_findById_run. simpl.
  destruct (castObjectId (param req "groupID")) as [e|kg]; [done|].
  injection Hgroup as Hgroup. rewrite Hgroup.
  rewrite isUserAdminOfGroup_run. simpl.
  assert (Hfind : find (fun member => strictEq (JStr (user member)) (param req "userID"))
                       (members g.2) = None).
  { apply find_None. intros m Hm. specialize (Hnot m Hm).
    destruct (strictEq (JStr (user m)) (param req "userID")) eqn:Heq; [|done].
    by apply strictEq_JStr in Heq. }
  by rewrite Hfind.
Qed.

Lemma truthy_param_refl (req : Request) (key : string) :
  truthy (param req key) = true -> strictEq (param req key) (param req key) = true.
Proof.
  unfold param. destruct (params req !! key) as [s|]; simpl; [|done].
  intros _. by apply strictEq_JStr.
Qed.

Lemma find_weaken {A} (p q : A -> bool) (arr : list A) :
  (forall x, p x = true -> q x = true) ->
  is_Some (find p arr) -> is_Some (find q arr).
Proof.
  intros Hpq. rewrite !find_is_Some. intros (x & Hin & Hp). eauto.
Qed.

(** C2, as the code has it.  A request whose [userID] equals its
    [targetUserID] never changes the store.  With the four inputs present
    and the role valid, it is answered 400 "Cannot change your own role"
    when the caller is an admin of the group and 403 when the caller is
    not; with an input missing or the role invalid it is answered 400. *)
Theorem updateUserRole_self (d : Db) (req : Request) :
  let userID := param req "userID" in
  let role := field (body req) "role" in
  let groupID := field (body req) "groupID" in
  let wellFormed :=
    truthy userID && truthy role && truthy groupID && includes validRoles role in
  let isAdmin := (run (isUserAdminOfGroup userID groupID) d).2 = Returned true in
  userID = param req "targetUserID" ->
  exists w r,
    run (updateUserRole req) d = (w, Returned r)
    /\ store w = d
    /\ (wellFormed = true -> isAdmin ->
          r = {| status := 400; json := message "Cannot change your own role" |})
    /\ (wellFormed = true -> ~ isAdmin ->
          r = {| status := 403;
                 json := message "Only group admins can update user roles" |})
    /\ (wellFormed = false -> status r = 400).
Proof.
  intros userID role groupID wellFormed isAdmin Hself.
  subst wellFormed isAdmin. unfold run.
  rewrite isUserAdminOfGroup_run. simpl.
  unfold updateUserRole, tryCatch, mbind, Async_bind.
  rewrite <- Hself. fold userID role groupID.
  destruct (truthy userID) eqn:Hu; simpl;
    [| eexists _, _; repeat split; done ].
  destruct (truthy role) eqn:Hr; simpl;
    [| eexists _, _; repeat split; done ].
  destruct (truthy groupID) eqn:Hg; simpl;
    [| eexists _, _; repeat split; done ].
  destruct (includes validRoles role) eqn:Hv; simpl;
    [| eexists _, _; repeat split; done ].
  rewrite isUserAdminOfGroup_run. simpl.
  destruct (castObjectId groupID) as [e|k] eqn:Hcast; simpl;
    [ eexists _, _; repeat split; done |].
  destruct (groups d !! k) as [g|] eqn:Hgroup; simpl;
    [| eexists _, _; repeat split; done ].
  match goal with
  | |- context [bool_decide ?P] => destruct (bool_decide P) eqn:Hadmin
  end; simpl; [| eexists _, _; repeat split; done ].
  rewrite Group_findById_run. simpl. rewrite Hcast, Hgroup. simpl.
  apply bool_decide_eq_true in Hadmin.
  assert (Hidx : is_Some (findIndex
                   (fun member => strictEq (JStr (user member)) userID) (members g))).
  { apply findIndex_is_Some. revert Hadmin. apply find_weaken.
    intros m Hm. by apply andb_true_iff in Hm as [? _]. }
  destruct Hidx as [i Hidx]. rewrite Hidx.
  subst userID. rewrite truthy_param_refl by done.
  eexists _, _. repeat split; done.
Qed.

(** The loop of [getAllUserGroups] appends, in order, the id of every
    entry. *)
Lemma push_entry_ids (extra : list AdditionalGroup) (acc : list string) :
  foldl (fun acc group => (acc ++ [entryGroupID group])%list) acc extra
  = (acc ++ map entryGroupID extra)%list.
Proof.
  revert acc. induction extra as [|e extra IH]; intros acc.
  - by rewrite app_nil_r.
  - cbn [foldl map]. rewrite IH. by rewrite <- app_assoc.
Qed.

(** C6. For a user that exists, [getAllUserGroups] and [getAllGroups] both
    answer 200 with the same list of group ids: the primary [groupID], when
    present, and then the [groupID] of every entry of [additionalGroups] in
    the stored order, repeated ids kept; its length is 0 or 1, as the
    primary [groupID] is absent or present, plus the number of entries. *)
Theorem group_id_lists (d : Db) (req : Request) (u : Doc User) :
  let ids := (option_list (groupID u.2)
              ++ map entryGroupID (additionalGroups u.2))%list in
  let primaryCount := match groupID u.2 with Some _ => 1 | None => 0 end in
  userLookup d (param req "userID") = Returned (Some u) ->
  length ids = primaryCount + length (additionalGroups u.2)
  /\ (exists r answer,
        (run (getAllUserGroups req) d).2 = Returned r
        /\ status r = 200 /\ json r = Json answer
        /\ prop "groupIDs" answer = JArr (map JStr ids))
  /\ (truthy (param req "userID") = true ->
      exists r answer,
        (run (getAllGroups req) d).2 = Returned r
        /\ status r = 200 /\ json r = Json answer
        /\ prop "groupIDs" answer = JArr (map JStr ids)).
Proof.
  intros ids primaryCount Hlookup.
  rewrite userLookup_eq in Hlookup.
  destruct (castObjectId (param req "userID")) as [e|k] eqn:Hcast; [done|].
  injection Hlookup as Hlookup.
  split; [|split].
  - subst ids primaryCount. rewrite length_app, length_map.
    by destruct (groupID u.2).
  - unfold run, getAllUserGroups, tryCatch, mbind, Async_bind.
    rewrite User_findById_run. simpl. rewrite Hcast, Hlookup.
    rewrite push_entry_ids.
    change (match groupID u.2 with
            | Some p => [p]
            | None => []
            end) with (option_list (groupID u.2)).
    eexists _, _. split; [reflexivity|].
    split; [done|]. split; [reflexivity|]. reflexivity.
  - intros Htruthy.
    unfold run, getAllGroups, tryCatch, mbind, Async_bind.
    rewrite Htruthy. simpl.
    rewrite User_findById_run. simpl. rewrite Hcast, Hlookup.
    eexists _, _. split; [reflexivity|].
    split; [done|]. split; [reflexivity|].
    cbn [prop getField String.eqb Ascii.eqb Bool.eqb]. f_equal.
    subst ids. rewrite map_app, map_map.
    assert (Hprimary : match groupID u.2 with
                       | Some p => [JStr p]
                       | None => []
                       end = map JStr (option_list (groupID u.2)))
      by (by destruct (groupID u.2)).
    rewrite Hprimary.
    destruct (bool_decide (0 < length (additionalGroups u.2))) eqn:Hany; [done|].
    apply bool_decide_eq_false in Hany.
    destruct (additionalGroups u.2); [by rewrite app_nil_r | simpl in Hany; lia].
Qed.

Lemma User_find_run (ids : list string) (w : World) :
  User_find ids w =
    ({| store := store w; trace := (trace w ++ [UserFind ids])%list |},
     Returned (selectIn ids (users (store w)))).
Proof. done. Qed.

(** The map built by [users.forEach(user => userMap.set(...))]. *)
Lemma set_each_lookup {T} (docs : list (string * T)) :
  NoDup docs.*1 ->
  forall (acc : gmap string (string * T)) (k : string),
    foldl (fun m u => <[_id u := u]> m) acc docs !! k =
      match (list_to_map docs : gmap string T) !! k with
      | Some v => Some (k, v)
      | None => acc !! k
      end.
Proof.
  induction docs as [|[k1 v1] docs IH]; intros Hnodup acc k; [done|].
  rewrite fmap_cons in Hnodup. apply NoDup_cons in Hnodup as [Hfresh Hnodup].
  rewrite list_to_map_cons. cbn [foldl]. rewrite IH by done.
  unfold _id. cbn [fst] in *.
  destruct (decide (k1 = k)) as [->|Hne].
  - rewrite (lookup_insert_eq (list_to_map docs)).
    rewrite (not_elem_of_list_to_map_1 docs k) by done.
    by rewrite lookup_insert_eq.
  - rewrite (lookup_insert_ne (list_to_map docs) k1 k v1 Hne).
    destruct (list_to_map docs !! k); [done|].
    by rewrite lookup_insert_ne.
Qed.

(** After the batch lookup, the map holds the profile of every listed id
    that has one. *)
Lemma userMap_lookup {T} (ids : list string) (m : gmap string T) (k : string) :
  k ∈ ids ->
  foldl (fun (acc : gmap string (string * T)) u => <[_id u := u]> acc) ∅
        (selectIn ids m) !! k
  = (fun v => (k, v)) <$> m !! k.
Proof.
  intros Hin. unfold selectIn.
  rewrite set_each_lookup by apply NoDup_fst_map_to_list.
  rewrite list_to_map_to_list, lookup_empty.
  destruct (m !! k) as [v|] eqn:Hk; simpl.
  - assert (Hf : filter (fun kv : string * T => kv.1 ∈ ids) m !! k = Some v)
      by (by apply map_lookup_filter_Some).
    by rewrite Hf.
  - assert (Hf : filter (fun kv : string * T => kv.1 ∈ ids) m !! k = None)
      by (apply map_lookup_filter_None; by left).
    by rewrite Hf.
Qed.

(** C4, as the code has it.  A 200 answer of [getFamilyMembers] is an array
    with one entry for every member of the target group, in order; the
    entry has the member's role; its [familialRelation] is the member's
    when that is a non-empty string and [null] when the member has none or
    an empty one; its [fullName] is a string, the empty one when no user
    profile is stored under the member's user id. *)
Theorem getFamilyMembers_roster (d : Db) (req : Request) (w : World) (r : Response) :
  run (getFamilyMembers req) d = (w, Returned r) ->
  status r = 200 ->
  exists u primary g entries,
    userLookup d (param req "userID") = Returned (Some u)
    /\ groupID u.2 = Some primary
    /\ groupLookup d (if truthy (queryArg req "groupID")
                      then queryArg req "groupID" else JStr primary)
       = Returned (Some g)
    /\ json r = Json (JArr entries)
    /\ length entries = length (members g.2)
    /\ forall i m, members g.2 !! i = Some m ->
         exists e full,
           entries !! i = Some e
           /\ prop "role" e = JStr (role m)
           /\ (forall rel, familialRelation m = Some rel -> rel <> "" ->
                 prop "familialRelation" e = JStr rel)
           /\ (familialRelation m = None \/ familialRelation m = Some "" ->
                 prop "familialRelation" e = JNull)
           /\ prop "fullName" e = JStr full
           /\ (users d !! user m = None -> full = "").
Proof.
  unfold run, getFamilyMembers, tryCatch, mbind, Async_bind.
  rewrite User_findById_run. simpl.
  destruct (castObjectId (param req "userID")) as [e|ku] eqn:Hcu; simpl;
    [by intros [= <- <-] [=]|].
  destruct (users d !! ku) as [u|] eqn:Hu; simpl; [|by intros [= <- <-] [=]].
  destruct (groupID u) as [primary|] eqn:Hprimary; simpl; [|by intros [= <- <-] [=]].
  set (target := if truthy (queryArg req "groupID")
                 then queryArg req "groupID" else JStr primary).
  rewrite Group_findById_run. simpl.
  destruct (castObjectId target) as [e|kg] eqn:Hcg; simpl;
    [by intros [= <- <-] [=]|].
  destruct (groups d !! kg) as [g|] eqn:Hg; simpl; [|by intros [= <- <-] [=]].
  intros [= <- <-] _. simpl.
  eexists (ku, u), primary, (kg, g), _.
  split; [by rewrite userLookup_eq, Hcu, Hu|]. split; [done|].
  split; [fold target; by rewrite groupLookup_eq, Hcg, Hg|].
  split; [reflexivity|].
  split; [by rewrite length_map|].
  intros i m Hm.
  assert (Hin : user m ∈ map user (members g)).
  { apply list_elem_of_fmap. exists m. split; [done|].
    by apply list_elem_of_lookup_2 in Hm. }
  eexists _, _. split.
  { simpl in Hm. change (map ?f ?l) with (f <$> l). rewrite list_lookup_fmap, Hm. reflexivity. }
  simpl. split; [done|]. split.
  { intros rel -> Hrel. simpl.
    destruct (String.eqb_spec rel ""); [done|done]. }
  split.
  { by intros [-> | ->]. }
  split; [reflexivity|].
  intros Hnone. by rewrite (userMap_lookup _ _ _ Hin), Hnone.
Qed.

(** The first two calls of [getFamilyMembers] for a user that exists: the
    user is looked up, then the group named in the query string when there
    is one and the user's primary group otherwise. *)
Lemma getFamilyMembers_calls (d : Db) (req : Request) (u : Doc User) :
  let userID := param req "userID" in
  let requested := queryArg req "groupID" in
  userLookup d userID = Returned (Some u) ->
  (forall primary, groupID u.2 = Some primary -> truthy requested = true ->
     exists rest,
       trace (run (getFamilyMembers req) d).1
       = UserFindById userID :: GroupFindById requested :: rest)
  /\ (forall primary, groupID u.2 = Some primary -> truthy requested = false ->
        exists rest,
          trace (run (getFamilyMembers req) d).1
          = UserFindById userID :: GroupFindById (JStr primary) :: rest)
  /\ (groupID u.2 = None ->
        run (getFamilyMembers req) d
        = ({| store := d; trace := [UserFindById userID] |},
           Returned {| status := 404; json := message "User or group not found" |})).
Proof.
  intros userID requested Hlookup.
  rewrite userLookup_eq in Hlookup.
  destruct (castObjectId userID) as [e|ku] eqn:Hcu; [done|].
  injection Hlookup as Hlookup.
  assert (Hrun : forall primary target,
    groupID u.2 = Some primary ->
    (if truthy requested then requested else JStr primary) = target ->
    exists rest,
      trace (run (getFamilyMembers req) d).1
      = UserFindById userID :: GroupFindById target :: rest).
  { intros primary target Hprimary Htarget.
    unfold run, getFamilyMembers, tryCatch, mbind, Async_bind.
    rewrite User_findById_run. simpl. fold userID requested.
    rewrite Hcu, Hlookup. simpl. rewrite Hprimary, Htarget.
    rewrite Group_findById_run. simpl.
    destruct (castObjectId target) as [e|kg]; simpl; [by eexists|].
    destruct (groups d !! kg) as [g|]; simpl; by eexists. }
  split; [|split].
  - intros primary Hprimary Htruthy. apply (Hrun primary); [done|].
    by rewrite Htruthy.
  - intros primary Hprimary Hfalsy. apply (Hrun primary); [done|].
    by rewrite Hfalsy.
  - intros Hnone.
    unfold run, getFamilyMembers, tryCatch, mbind, Async_bind.
    rewrite User_findById_run. simpl. fold userID.
    rewrite Hcu, Hlookup. simpl. by rewrite Hnone.
Qed.

(** The one call [updateUser] makes: the payload is the body, without its
    [email] when that is truthy. *)
Lemma updateUser_call (d : Db) (req : Request) :
  trace (run (updateUser req) d).1
  = [UserFindByIdAndUpdate (param req "userID")
       (if truthy (field (body req) "email")
        then delete "email" (body req) else body req)].
Proof.
  unfold run, updateUser, tryCatch, mbind, Async_bind.
  set (updates := if truthy (field (body req) "email")
                  then delete "email" (body req) else body req).
  async.
  destruct (castObjectId (param req "userID")) as [e|k]; simpl; [done|].
  destruct (users d !! k) as [u|]; simpl; [|done].
  by destruct (applySet updates u).
Qed.

End Properties.

(** * The handlers on the sample store *)

Lemma isUserAdminOfGroup_sample :
  (run (isUserAdminOfGroup (H := plainStore) (JStr "u1") (JStr "g1")) sampleDb).2
  = Returned true.
Proof.
  apply (@isUserAdminOfGroup_iff plainStore sampleDb (JStr "u1") (JStr "g1")).
  exists ("g1", family). split; [reflexivity|].
  exists {| user := "u1"; role := "admin"; familialRelation := Some "mother" |}.
  split; [left | split; reflexivity].
Defined.

(** C2 fails as stated: a member who is not an admin and names himself as
    the target is answered 403, not 400. *)
Lemma updateUserRole_self_forbidden :
  param selfMemberRequest "userID" = param selfMemberRequest "targetUserID"
  /\ exists r,
       (run (updateUserRole (H := plainStore) selfMemberRequest) sampleDb).2
       = Returned r
       /\ status r = 403 /\ status r <> 400.
Proof.
  split; [reflexivity|].
  eexists. split; [vm_compute; reflexivity|]. split; [reflexivity | discriminate].
Qed.

Lemma updateUserRole_self_sample :
  param selfAdminRequest "userID" = param selfAdminRequest "targetUserID"
  /\ exists w r,
       run (updateUserRole (H := plainStore) selfAdminRequest) sampleDb
       = (w, Returned r)
       /\ store w = sampleDb
       /\ r = {| status := 400; json := message "Cannot change your own role" |}.
Proof.
  split; [reflexivity|].
  destruct (@updateUserRole_self plainStore sampleDb selfAdminRequest eq_refl)
    as (w & r & Hrun & Hstore & Hadmin & _).
  exists w, r. split; [exact Hrun|]. split; [exact Hstore|].
  apply Hadmin; vm_compute; reflexivity.
Defined.

(** C3. The body [{email: "", name: "Bob"}] reaches the store with its
    [email] still in the [$set] payload, whatever the store; on the sample
    store the call succeeds and the stored email is replaced by the empty
    string. *)
Theorem updateUser_keeps_falsy_email :
  (forall (M : Mongoose) (d : Db),
     trace (run (updateUser (H := M) emptyEmailUpdate) d).1
     = [UserFindByIdAndUpdate (JStr "u1") (body emptyEmailUpdate)])
  /\ body emptyEmailUpdate !! "email" = Some (JStr "")
  /\ (users sampleDb !! "u1" ≫= email) = Some "alice@example.org"
  /\ exists w u,
       run (updateUser (H := plainStore) emptyEmailUpdate) sampleDb
       = (w, Returned {| status := 200; json := UserDoc ("u1", u) |})
       /\ users (store w) !! "u1" = Some u
       /\ email u = Some "".
Proof.
  split; [|split; [|split]].
  - intros M d. by rewrite updateUser_call.
  - reflexivity.
  - reflexivity.
  - eexists _, _. split; [vm_compute; reflexivity|].
    split; vm_compute; reflexivity.
Qed.

(** C4 fails as stated: the second member of the sample group has the empty
    string as familial relation, and the entry returned for him has
    [null]. *)
Lemma getFamilyMembers_empty_relation :
  exists w entries m e,
    run (getFamilyMembers (H := plainStore) rosterRequest) sampleDb
    = (w, Returned {| status := 200; json := Json (JArr entries) |})
    /\ groups sampleDb !! "g1" = Some family
    /\ members family !! 1 = Some m
    /\ entries !! 1 = Some e
    /\ familialRelation m = Some ""
    /\ prop "familialRelation" e = JNull
    /\ prop "familialRelation" e <> JStr "".
Proof.
  eexists _, _, _, _. split; [vm_compute; reflexivity|].
  split; [reflexivity|]. split; [reflexivity|]. split; [reflexivity|].
  split; [reflexivity|]. split; [reflexivity | discriminate].
Qed.

Lemma getFamilyMembers_roster_sample :
  exists w r,
    run (getFamilyMembers (H := plainStore) rosterRequest) sampleDb = (w, Returned r)
    /\ status r = 200
    /\ exists g entries,
         groupLookup (H := plainStore) sampleDb (JStr "g1") = Returned (Some g)
         /\ json r = Json (JArr entries)
         /\ length entries = length (members g.2).
Proof.
  eexists _, _. split; [vm_compute; reflexivity|]. split; [reflexivity|].
  destruct (@getFamilyMembers_roster plainStore sampleDb rosterRequest _ _
              eq_refl eq_refl)
    as (u & primary & g & entries & Hu & Hprimary & Hg & Hjson & Hlen & _).
  exists g, entries. split; [|split; [exact Hjson | exact Hlen]].
  injection Hu as <-. injection Hprimary as <-. exact Hg.
Defined.

Lemma group_id_lists_sample :
  userLookup (H := plainStore) sampleDb (param rosterRequest "userID")
  = Returned (Some ("u1", alice))
  /\ truthy (param rosterRequest "userID") = true
  /\ length (additionalGroups alice) = 2
  /\ (exists r answer,
        (run (getAllUserGroups (H := plainStore) rosterRequest) sampleDb).2 = Returned r
        /\ status r = 200 /\ json r = Json answer
        /\ prop "groupIDs" answer = JArr [JStr "g1"; JStr "g2"; JStr "g1"])
  /\ (exists r answer,
        (run (getAllGroups (H := plainStore) rosterRequest) sampleDb).2 = Returned r
        /\ status r = 200 /\ json r = Json answer
        /\ prop "groupIDs" answer = JArr [JStr "g1"; JStr "g2"; JStr "g1"]).
Proof.
  split; [reflexivity|]. split; [reflexivity|]. split; [reflexivity|].
  destruct (@group_id_lists plainStore sampleDb rosterRequest ("u1", alice) eq_refl)
    as (_ & Hall & Hids).
  split; [exact Hall | exact (Hids eq_refl)].
Defined.

Lemma updateUserRole_invalid_role_sample :
  includes validRoles (field (body badRoleRequest) "role") = false
  /\ run (updateUserRole (H := plainStore) badRoleRequest) sampleDb
     = ({| store := sampleDb; trace := [] |},
        Returned {| status := 400;
                    json := message "Invalid role. Must be admin, caregiver, or carereceiver" |}).
Proof.
  split; [reflexivity|].
  exact (@updateUserRole_invalid_role plainStore sampleDb badRoleRequest
           eq_refl eq_refl eq_refl eq_refl eq_refl).
Defined.

Lemma getNotificationPreferences_default_sample :
  notificationPreferences alice = None
  /\ (run (getNotificationPreferences (H := plainStore) rosterRequest) sampleDb).2
     = Returned {| status := 200;
                   json := Json (JObj [("doNotDisturb", JBool false);
                                       ("newFeed", JBool true);
                                       ("newActivity", JBool true);
                                       ("invites", JBool true)]) |}.
Proof.
  split; [reflexivity|].
  exact (@getNotificationPreferences_default plainStore sampleDb rosterRequest
           ("u1", alice) eq_refl eq_refl).
Defined.

Lemma provideAdditionalUserInfo_truthiness_sample :
  field (body zeroWeightRequest) "weight" = JNum 0
  /\ run (provideAdditionalUserInfo (H := plainStore) zeroWeightRequest) sampleDb
     = ({| store := sampleDb; trace := [] |},
        Returned (Some {| status := 400;
                          json := message "Please fill out all fields to complete onboarding" |})).
Proof.
  split; [reflexivity|].
  exact (@provideAdditionalUserInfo_truthiness plainStore sampleDb zeroWeightRequest
           (or_introl eq_refl)).
Defined.

Lemma checkUserAdminStatus_not_member_sample :
  userLookup (H := plainStore) sampleDb (param outsiderRequest "userID")
  = Returned (Some ("u3", carol))
  /\ groupLookup (H := plainStore) sampleDb (param outsiderRequest "groupID")
     = Returned (Some ("g1", family))
  /\ (run (checkUserAdminStatus (H := plainStore) outsiderRequest) sampleDb).2
     = Returned {| status := 200;
                   json := Json (JObj [("isAdmin", JBool false);
                                       ("isMember", JBool false);
                                       ("message", JStr "User is not a member of this group")]) |}.
Proof.
  split; [reflexivity|]. split; [reflexivity|].
  apply (@checkUserAdminStatus_not_member plainStore sampleDb outsiderRequest
           ("u3", carol) ("g1", family)); try reflexivity.
  intros m Hm. simpl in Hm.
  repeat (apply elem_of_cons in Hm as [-> | Hm]); try discriminate.
  by apply elem_of_nil in Hm.
Defined.

(** * Further properties of the handlers *)

Lemma findIndex_Some_lookup {A} (p : A -> bool) (arr : list A) (i : nat) :
  findIndex p arr = Some i <->
  (exists x, arr !! i = Some x /\ p x = true)
  /\ (forall j y, j < i -> arr !! j = Some y -> p y = false).
Proof.
  revert i. induction arr as [|a arr IH]; intros i; simpl.
  - split; [done|]. by intros [(x & Hx & _) _].
  - destruct (p a) eqn:Hpa.
    + split.
      * intros [= <-]. split; [by exists a|]. intros j y Hj. lia.
      * intros [(x & Hx & Hpx) Hfirst]. destruct i as [|i]; [done|].
        specialize (Hfirst 0 a). simpl in Hfirst.
        rewrite Hfirst in Hpa; [done | lia | done].
    + split.
      * intros Hidx. apply fmap_Some in Hidx as (i' & Hidx & ->).
        apply IH in Hidx as [(x & Hx & Hpx) Hfirst]. split; [by exists x|].
        intros [|j] y Hj; simpl; [by intros [= <-]|].
        apply Hfirst. lia.
      * intros [(x & Hx & Hpx) Hfirst]. destruct i as [|i].
        { simpl in Hx. injection Hx as ->. congruence. }
        apply fmap_Some. exists i. split; [|done].
        apply IH. split; [by exists x|].
        intros j y Hj. apply (Hfirst (S j)). lia.
Qed.

(** The first match of a scan is the entry at the first matching index. *)
Lemma find_findIndex {A} (p : A -> bool) (arr : list A) :
  find p arr = findIndex p arr ≫= (fun i => arr !! i).
Proof.
  induction arr as [|a arr IH]; simpl; [done|].
  destruct (p a); [done|]. rewrite IH.
  by destruct (findIndex p arr).
Qed.

(** Changing the entry at the first matching index, with a change the test
    does not see, leaves that index the first match. *)
Lemma findIndex_alter {A} (p : A -> bool) (f : A -> A) (arr : list A) (i : nat) :
  (forall x, p (f x) = p x) ->
  findIndex p (alter f i arr) = findIndex p arr.
Proof.
  intros Hpf. revert i. induction arr as [|a arr IH]; intros i; [done|].
  destruct i as [|i].
  - simpl. by rewrite Hpf.
  - change (alter f (S i) (a :: arr)) with (a :: alter f i arr).
    cbn [findIndex]. destruct (p a); [done|]. by rewrite IH.
Qed.

Lemma strictEq_param_ne (req : Request) (a b : string) :
  truthy (param req a) = true ->
  strictEq (param req a) (param req b) = false <-> param req a <> param req b.
Proof.
  unfold param. destruct (params req !! a) as [s|]; simpl; [|done].
  intros _. split.
  - intros Hne Heq. rewrite <- Heq in Hne.
    by rewrite (proj2 (strictEq_JStr s (JStr s))) in Hne.
  - intros Hne. destruct (strictEq (JStr s) _) eqn:Heq; [|done].
    by apply strictEq_JStr in Heq.
Qed.

Lemma includes_validRoles (v : Js) :
  includes validRoles v = true <->
  exists r, v = JStr r /\ r ∈ validRoles.
Proof.
  unfold includes. rewrite existsb_exists. split.
  - intros (r & Hin & Heq). apply strictEq_JStr in Heq. exists r.
    split; [done|]. by apply list_elem_of_In.
  - intros (r & -> & Hin). exists r. split; [by apply list_elem_of_In|].
    by apply strictEq_JStr.
Qed.

Section Further.

Context `{Mongoose}.

Lemma User_findByIdAndUpdate_run (id : Js) (set : gmap string Js) (w : World) :
  User_findByIdAndUpdate id set w =
    let t := (trace w ++ [UserFindByIdAndUpdate id set])%list in
    match castObjectId id with
    | inl e => ({| store := store w; trace := t |}, Threw e)
    | inr k =>
        match users (store w) !! k with
        | None => ({| store := store w; trace := t |}, Returned None)
        | Some u =>
            match applySet set u with
            | inl e => ({| store := store w; trace := t |}, Threw e)
            | inr u' =>
                ({| store := {| users := <[k := u']> (users (store w));
                                groups := groups (store w) |};
                    trace := t |},
                 Returned (Some (k, u')))
            end
        end
    end.
Proof.
  unfold User_findByIdAndUpdate, castQueryId, logCall, readStore, writeStore,
    throw, mbind, mret, Async_bind, Async_ret. simpl.
  destruct (castObjectId id) as [e|k]; [done|]. simpl.
  destruct (users (store w) !! k) as [u|]; [|done].
  by destruct (applySet set u).
Qed.

Lemma User_findByIdAndDelete_run (id : Js) (w : World) :
  User_findByIdAndDelete id w =
    match castObjectId id with
    | inl e => (w, Threw e)
    | inr k =>
        match users (store w) !! k with
        | None => (w, Returned None)
        | Some u =>
            ({| store := {| users := delete k (users (store w));
                            groups := groups (store w) |};
                trace := trace w |},
             Returned (Some (k, u)))
        end
    end.
Proof.
  unfold User_findByIdAndDelete, castQueryId, readStore, writeStore,
    throw, mbind, mret, Async_bind, Async_ret.
  destruct (castObjectId id) as [e|k]; [done|]. simpl.
  by destruct (users (store w) !! k).
Qed.

(** The whole of [updateUserRole] once the inputs are present and the role
    is one of the three. *)
Lemma updateUserRole_run (d : Db) (req : Request) :
  let userID := param req "userID" in
  let targetUserID := param req "targetUserID" in
  let role := field (body req) "role" in
  let groupID := field (body req) "groupID" in
  truthy userID = true -> truthy targetUserID = true ->
  truthy role = true -> truthy groupID = true ->
  includes validRoles role = true ->
  run (updateUserRole req) d =
    let forbidden :=
      ({| store := d; trace := [GroupFindById groupID] |},
       Returned {| status := 403;
                   json := message "Only group admins can update user roles" |}) in
    match castObjectId groupID with
    | inl _ => forbidden
    | inr k =>
        match groups d !! k with
        | None => forbidden
        | Some g =>
            if hasAdminEntry userID (members g) then
              match findIndex (fun member => strictEq (JStr (user member)) targetUserID)
                              (members g) with
              | None =>
                  ({| store := d;
                      trace := [GroupFindById groupID; GroupFindById groupID] |},
                   Returned {| status := 404;
                               json := message "Target user is not a member of this group" |})
              | Some i =>
                  if strictEq userID targetUserID then
                    ({| store := d;
                        trace := [GroupFindById groupID; GroupFindById groupID] |},
                     Returned {| status := 400;
                                 json := message "Cannot change your own role" |})
                  else
                    let g' := {| name := name g;
                                 members := alter (setRole (stringOf role)) i (members g) |} in
                    ({| store := {| users := users d;
                                    groups := <[k := g']> (groups d) |};
                        trace := [GroupFindById groupID; GroupFindById groupID;
                                  GroupSave (k, g')] |},
                     Returned {| status := 200;
                                 json := Json (JObj [("message", JStr "User role updated successfully");
                                                     ("updatedMember",
                                                      JObj [("userID", targetUserID);
                                                            ("role", role);
                                                            ("groupID", groupID)])]) |})
              end
            else forbidden
        end
    end.
Proof.
  intros userID targetUserID role groupID Hu Ht Hr Hg Hv.
  unfold run, updateUserRole, tryCatch, mbind, Async_bind.
  fold userID targetUserID role groupID.
  rewrite Hu, Ht, Hr, Hg, Hv. simpl.
  rewrite isUserAdminOfGroup_run. simpl. unfold hasAdminEntry.
  destruct (castObjectId groupID) as [e|k] eqn:Hcast; simpl; [done|].
  destruct (groups d !! k) as [g|] eqn:Hgroup; simpl; [|done].
  match goal with
  | |- context [bool_decide ?P] => destruct (bool_decide P)
  end; simpl; [|done].
  rewrite Group_findById_run. simpl. rewrite Hcast, Hgroup. simpl.
  destruct (findIndex _ (members g)) as [i|]; [|done].
  by destruct (strictEq userID targetUserID).
Qed.

Lemma validRole_truthy (r : string) : r ∈ validRoles -> truthy (JStr r) = true.
Proof.
  intros Hin. unfold validRoles in Hin.
  repeat (apply elem_of_cons in Hin as [-> | Hin]); try done.
  by apply elem_of_nil in Hin.
Qed.

Lemma hasAdminEntry_true (userID : Js) (ms : list Member) :
  hasAdminEntry userID ms = true <->
  exists m, m ∈ ms /\ JStr (user m) = userID /\ role m = "admin".
Proof.
  unfold hasAdminEntry. rewrite bool_decide_eq_true, find_is_Some.
  split; intros (m & Hin & Hm); exists m; (split; [done|]).
  - apply andb_true_iff in Hm as [Hu Hr].
    by apply strictEq_JStr in Hu; apply String.eqb_eq in Hr.
  - destruct Hm as [Hu Hr]. apply andb_true_iff.
    by split; [apply strictEq_JStr | apply String.eqb_eq].
Qed.

Lemma isUserAdminOfGroup_answer (d : Db) (userID groupID : Js) :
  (run (isUserAdminOfGroup userID groupID) d).2 =
    Returned match castObjectId groupID with
             | inl _ => false
             | inr k =>
                 match groups d !! k with
                 | None => false
                 | Some g => hasAdminEntry userID (members g)
                 end
             end.
Proof. unfold run. by rewrite isUserAdminOfGroup_run. Qed.

Lemma hasAdminEntry_alter_other
    (userID : Js) (r : string) (i : nat) (ms : list Member) (mt : Member) :
  ms !! i = Some mt -> JStr (user mt) <> userID ->
  hasAdminEntry userID ms = true ->
  hasAdminEntry userID (alter (setRole r) i ms) = true.
Proof.
  intros Hmt Hother. rewrite !hasAdminEntry_true.
  intros (m & Hin & Hu & Hr). exists m. split; [|done].
  apply list_elem_of_lookup in Hin as [j Hj].
  apply list_elem_of_lookup. exists j.
  rewrite list_lookup_alter_ne; [done|].
  intros ->. congruence.
Qed.

(** With an input missing or the role not one of the three, the answer is
    400 and nothing is asked of the store. *)
Lemma updateUserRole_rejected (d : Db) (req : Request) :
  truthy (param req "userID") && truthy (param req "targetUserID")
  && truthy (field (body req) "role") && truthy (field (body req) "groupID")
  && includes validRoles (field (body req) "role") = false ->
  exists r,
    run (updateUserRole req) d = ({| store := d; trace := [] |}, Returned r)
    /\ status r = 400.
Proof.
  intros Hbad. unfold run, updateUserRole, tryCatch.
  destruct (truthy (param req "userID")); simpl; [|by eexists].
  destruct (truthy (param req "targetUserID")); simpl; [|by eexists].
  destruct (truthy (field (body req) "role")); simpl; [|by eexists].
  destruct (truthy (field (body req) "groupID")); simpl; [|by eexists].
  simpl in Hbad. rewrite Hbad. simpl. by eexists.
Qed.

(** What a 200 answer of [updateUserRole] tells. *)
Lemma updateUserRole_200_inv (d : Db) (req : Request) (w : World) (r : Response) :
  let userID := param req "userID" in
  let targetUserID := param req "targetUserID" in
  let groupID := field (body req) "groupID" in
  run (updateUserRole req) d = (w, Returned r) -> status r = 200 ->
  exists k g i rn,
    truthy userID = true /\ truthy targetUserID = true /\ truthy groupID = true
    /\ field (body req) "role" = JStr rn /\ rn ∈ validRoles
    /\ castObjectId groupID = inr k /\ groups d !! k = Some g
    /\ hasAdminEntry userID (members g) = true
    /\ findIndex (fun member => strictEq (JStr (user member)) targetUserID)
                 (members g) = Some i
    /\ strictEq userID targetUserID = false
    /\ store w = {| users := users d;
                    groups := <[k := {| name := name g;
                                        members := alter (setRole rn) i (members g) |}]>
                                (groups d) |}.
Proof.
  intros userID targetUserID groupID Hrun Hstatus.
  destruct (truthy userID && truthy targetUserID && truthy (field (body req) "role")
            && truthy groupID && includes validRoles (field (body req) "role"))
    eqn:Hok.
  - repeat (apply andb_true_iff in Hok as [Hok ?]).
    rewrite updateUserRole_run in Hrun by done.
    fold userID targetUserID groupID in Hrun. cbn zeta in Hrun.
    match goal with
    | Hv : includes validRoles _ = true |- _ =>
        apply includes_validRoles in Hv as (rn & Hrole & Hvalid)
    end.
    destruct (castObjectId groupID) as [e|k] eqn:Hcast;
      [injection Hrun as <- <-; done|].
    destruct (groups d !! k) as [g|] eqn:Hg; [|injection Hrun as <- <-; done].
    destruct (hasAdminEntry userID (members g)) eqn:Hadmin;
      [|injection Hrun as <- <-; done].
    destruct (findIndex _ (members g)) as [i|] eqn:Hidx;
      [|injection Hrun as <- <-; done].
    destruct (strictEq userID targetUserID) eqn:Hself;
      [injection Hrun as <- <-; done|].
    injection Hrun as <- <-. exists k, g, i, rn.
    rewrite Hrole. simpl. by repeat split.
  - destruct (updateUserRole_rejected d req Hok) as (r' & Hrun' & Hstatus').
    rewrite Hrun' in Hrun. injection Hrun as <- <-. congruence.
Qed.

(** [updateUserRole] always answers, and changes the store only with a
    200. *)
Lemma updateUserRole_answers (d : Db) (req : Request) :
  exists w r,
    run (updateUserRole req) d = (w, Returned r)
    /\ (status r <> 200 -> store w = d).
Proof.
  destruct (truthy (param req "userID") && truthy (param req "targetUserID")
            && truthy (field (body req) "role") && truthy (field (body req) "groupID")
            && includes validRoles (field (body req) "role")) eqn:Hok.
  - repeat (apply andb_true_iff in Hok as [Hok ?]).
    rewrite updateUserRole_run by done. cbn zeta.
    destruct (castObjectId _) as [e|k]; [by eexists _, _|].
    destruct (groups d !! k) as [g|]; [|by eexists _, _].
    destruct (hasAdminEntry _ (members g)); [|by eexists _, _].
    destruct (findIndex _ (members g)) as [i|]; [|by eexists _, _].
    destruct (strictEq _ _); by eexists _, _.
  - destruct (updateUserRole_rejected d req Hok) as (r & Hrun & Hstatus).
    eexists _, r. by split.
Qed.

(** X1. An admin of the group who names another member as the target, with
    a valid role, is answered 200, and the store changes in one place only:
    the role of the first entry of the target in that group.  The users,
    the other groups, the group's name, the order and number of its
    entries, and every entry's user and familial relation stay. *)
Theorem updateUserRole_success
    (d : Db) (req : Request) (k r : string) (g : Group) (i : nat) (mt : Member) :
  let userID := param req "userID" in
  let targetUserID := param req "targetUserID" in
  let groupID := field (body req) "groupID" in
  truthy userID = true -> truthy targetUserID = true -> truthy groupID = true ->
  field (body req) "role" = JStr r -> r ∈ validRoles ->
  groupLookup d groupID = Returned (Some (k, g)) ->
  (exists m, m ∈ members g /\ JStr (user m) = userID /\ role m = "admin") ->
  members g !! i = Some mt -> JStr (user mt) = targetUserID ->
  (forall j m, j < i -> members g !! j = Some m -> JStr (user m) <> targetUserID) ->
  userID <> targetUserID ->
  exists w g',
    run (updateUserRole req) d
    = (w, Returned {| status := 200;
                      json := Json (JObj [("message", JStr "User role updated successfully");
                                          ("updatedMember",
                                           JObj [("userID", targetUserID);
                                                 ("role", JStr r);
                                                 ("groupID", groupID)])]) |})
    /\ users (store w) = users d
    /\ (forall k', k' <> k -> groups (store w) !! k' = groups d !! k')
    /\ groups (store w) !! k = Some g'
    /\ name g' = name g
    /\ length (members g') = length (members g)
    /\ forall j m, members g !! j = Some m ->
         exists m', members g' !! j = Some m'
           /\ user m' = user m
           /\ familialRelation m' = familialRelation m
           /\ role m' = if decide (j = i) then r else role m.
Proof.
  intros userID targetUserID groupID Hu Ht Hg Hrole Hvalid Hlookup Hadmin
    Hmt Htarget Hfirst Hne.
  rewrite groupLookup_eq in Hlookup.
  destruct (castObjectId groupID) as [e|k0] eqn:Hcast; [done|].
  destruct (groups d !! k0) as [g0|] eqn:Hgroup; [|done].
  injection Hlookup as -> ->.
  pose proof (validRole_truthy r Hvalid) as Hr.
  rewrite updateUserRole_run; fold userID targetUserID groupID;
    rewrite ?Hrole; try done;
    [|apply includes_validRoles; by exists r].
  rewrite Hcast, Hgroup. cbn zeta.
  rewrite (proj2 (hasAdminEntry_true userID (members g)) Hadmin).
  assert (Hidx : findIndex (fun member => strictEq (JStr (user member)) targetUserID)
                           (members g) = Some i).
  { apply findIndex_Some_lookup. split.
    - exists mt. split; [done|]. by apply strictEq_JStr.
    - intros j m Hj Hm. specialize (Hfirst j m Hj Hm).
      destruct (strictEq (JStr (user m)) targetUserID) eqn:Heq; [|done].
      by apply strictEq_JStr in Heq. }
  rewrite Hidx.
  assert (Hself : strictEq userID targetUserID = false)
    by (by apply (strictEq_param_ne req "userID" "targetUserID")).
  rewrite Hself.
  eexists _, {| name := name g; members := alter (setRole r) i (members g) |}.
  split; [reflexivity|]. cbn [store users groups name members].
  split; [done|]. split; [by intros k' Hk'; rewrite lookup_insert_ne|].
  split; [by rewrite lookup_insert_eq|]. split; [done|].
  split; [by rewrite length_alter|].
  intros j m Hm. destruct (decide (j = i)) as [->|Hji].
  - exists (setRole r m). by rewrite list_lookup_alter_eq, Hm.
  - exists m. by rewrite list_lookup_alter_ne.
Qed.

(** X2. [updateUserRole] always answers; it answers 200 only to a caller
    who is an admin of the group, names someone else and gives one of the
    three roles, and with any other answer the store is left as it was. *)
Theorem updateUserRole_guarded (d : Db) (req : Request) :
  let userID := param req "userID" in
  let targetUserID := param req "targetUserID" in
  let role := field (body req) "role" in
  let groupID := field (body req) "groupID" in
  exists w r,
    run (updateUserRole req) d = (w, Returned r)
    /\ (status r = 200 ->
          (run (isUserAdminOfGroup userID groupID) d).2 = Returned true
          /\ userID <> targetUserID
          /\ includes validRoles role = true)
    /\ (status r <> 200 -> store w = d).
Proof.
  intros userID targetUserID role groupID.
  destruct (updateUserRole_answers d req) as (w & r & Hrun & Hkeep).
  exists w, r. split; [done|]. split; [|done].
  intros Hok.
  destruct (updateUserRole_200_inv d req w r Hrun Hok)
    as (k & g & i & rn & Hu & _ & _ & Hrole & Hvalid & Hcast & Hg & Hadmin & _
        & Hself & _).
  split; [|split].
  - rewrite isUserAdminOfGroup_answer. fold groupID in Hcast.
    rewrite Hcast, Hg. by f_equal.
  - by apply (strictEq_param_ne req "userID" "targetUserID").
  - apply includes_validRoles. by exists rn.
Qed.

(** X3. A role update never costs the caller an admin role: whoever is an
    admin of a group before calling [updateUserRole] is an admin of it
    after, whatever the request. *)
Theorem updateUserRole_caller_stays_admin (d : Db) (req : Request) (G : Js) :
  let userID := param req "userID" in
  (run (isUserAdminOfGroup userID G) d).2 = Returned true ->
  (run (isUserAdminOfGroup userID G) (store (run (updateUserRole req) d).1)).2
  = Returned true.
Proof.
  intros userID Hbefore.
  destruct (updateUserRole_answers d req) as (w & r & Hrun & Hkeep).
  rewrite Hrun.
  destruct (decide (status r = 200)) as [Hok|Hrejected].
  - destruct (updateUserRole_200_inv d req w r Hrun Hok)
      as (k & g & i & rn & Hu & _ & _ & _ & _ & _ & Hg & _ & Hidx & Hself & Hstore).
    fold userID in Hself, Hu.
    rewrite isUserAdminOfGroup_answer in *. cbn [fst]. rewrite Hstore.
    cbn [groups].
    destruct (castObjectId G) as [e|kG]; [done|].
    destruct (decide (k = kG)) as [<-|Hother].
    + rewrite lookup_insert_eq. rewrite Hg in Hbefore. cbn [members].
      injection Hbefore as Hbefore. f_equal.
      apply findIndex_Some_lookup in Hidx as [(mt & Hmt & Htarget) _].
      apply strictEq_JStr in Htarget.
      apply (hasAdminEntry_alter_other userID rn i (members g) mt); [done| |done].
      intros Heq.
      apply (strictEq_param_ne req "userID" "targetUserID" Hu) in Hself.
      apply Hself. fold userID. congruence.
    + by rewrite lookup_insert_ne.
  - cbn [fst]. by rewrite (Hkeep Hrejected).
Qed.

(** The answer of [checkUserAdminStatus] when both ids are present. *)
Lemma checkUserAdminStatus_answer (d : Db) (req : Request) :
  let userID := param req "userID" in
  let groupID := param req "groupID" in
  truthy userID = true -> truthy groupID = true ->
  (run (checkUserAdminStatus req) d).2 =
    Returned
      match castObjectId userID with
      | inl e => {| status := 500; json := Json (JObj [("error", JStr e)]) |}
      | inr ku =>
          match users d !! ku with
          | None => {| status := 404; json := message "User not found" |}
          | Some _ =>
              match castObjectId groupID with
              | inl e => {| status := 500; json := Json (JObj [("error", JStr e)]) |}
              | inr kg =>
                  match groups d !! kg with
                  | None => {| status := 404; json := message "Group not found" |}
                  | Some g =>
                      match find (fun member => strictEq (JStr (user member)) userID)
                                 (members g) with
                      | None =>
                          {| status := 200;
                             json := Json (JObj [("isAdmin", JBool false);
                                                 ("isMember", JBool false);
                                                 ("message",
                                                  JStr "User is not a member of this group")]) |}
                      | Some m =>
                          {| status := 200;
                             json := Json (JObj [("isAdmin",
                                                  JBool (hasAdminEntry userID (members g)));
                                                 ("isMember", JBool true);
                                                 ("role", JStr (role m));
                                                 ("familialRelation",
                                                  strOrNull (familialRelation m));
                                                 ("groupName", JStr (name g))]) |}
                      end
                  end
              end
          end
      end.
Proof.
  intros userID groupID Hu Hg.
  unfold run, checkUserAdminStatus, tryCatch, mbind, Async_bind.
  fold userID groupID. rewrite Hu, Hg. simpl.
  rewrite User_findById_run. simpl.
  destruct (castObjectId userID) as [e|ku]; [done|].
  destruct (users d !! ku) as [u|]; simpl; [|done].
  rewrite Group_findById_run. simpl.
  destruct (castObjectId groupID) as [e|kg] eqn:Hcast; [done|].
  destruct (groups d !! kg) as [g|] eqn:Hgroup; simpl; [|done].
  rewrite isUserAdminOfGroup_run. simpl. rewrite Hcast, Hgroup.
  unfold hasAdminEntry.
  by destruct (find _ (members g)).
Qed.

(** X4. After a role update answered 200, [checkUserAdminStatus] for the
    target and the same group reports the target as a member with the new
    role, and as an admin when the new role is admin. *)
Theorem role_update_then_status
    (d : Db) (req req' : Request) (w : World) (r : Response) (u : Doc User) :
  run (updateUserRole req) d = (w, Returned r) -> status r = 200 ->
  param req' "userID" = param req "targetUserID" ->
  param req' "groupID" = field (body req) "groupID" ->
  userLookup d (param req' "userID") = Returned (Some u) ->
  exists b,
    (run (checkUserAdminStatus req') (store w)).2
    = Returned {| status := 200; json := Json b |}
    /\ prop "isMember" b = JBool true
    /\ prop "role" b = field (body req) "role"
    /\ (field (body req) "role" = JStr "admin" -> prop "isAdmin" b = JBool true).
Proof.
  intros Hrun Hok Huser Hgroup Hlookup.
  destruct (updateUserRole_200_inv d req w r Hrun Hok)
    as (k & g & i & rn & _ & Ht & Hg & Hrole & _ & Hcast & Hgd & _ & Hidx & _ & Hstore).
  rewrite userLookup_eq in Hlookup.
  rewrite checkUserAdminStatus_answer by (by rewrite ?Huser, ?Hgroup).
  rewrite Hstore. cbn [users groups].
  destruct (castObjectId (param req' "userID")) as [e|ku]; [done|].
  destruct (users d !! ku) as [u0|]; [|done].
  rewrite Hgroup, Hcast, lookup_insert_eq. cbn [members name].
  rewrite Huser.
  set (isTarget := fun member : Member =>
                     strictEq (JStr (user member)) (param req "targetUserID")).
  assert (Hfound : find isTarget (alter (setRole rn) i (members g))
                   = setRole rn <$> members g !! i).
  { rewrite find_findIndex, findIndex_alter by done.
    fold isTarget in Hidx. rewrite Hidx. simpl. apply list_lookup_alter_eq. }
  apply findIndex_Some_lookup in Hidx as [(mt & Hmt & Htarget) _].
  rewrite Hfound, Hmt. simpl.
  eexists. split; [reflexivity|]. simpl.
  split; [done|]. split; [by rewrite Hrole|].
  rewrite Hrole. intros [= ->]. f_equal.
  apply hasAdminEntry_true. exists (setRole "admin" mt).
  split; [|split; [by apply strictEq_JStr|done]].
  apply list_elem_of_lookup. exists i. by rewrite list_lookup_alter_eq, Hmt.
Qed.

Lemma find_unique_user (ms : list Member) (m : Member) :
  NoDup (map user ms) -> m ∈ ms ->
  find (fun member => strictEq (JStr (user member)) (JStr (user m))) ms = Some m.
Proof.
  induction ms as [|a ms IH]; intros Hnodup Hin; [by apply elem_of_nil in Hin|].
  cbn [map] in Hnodup. apply NoDup_cons in Hnodup as [Hfresh Hnodup].
  cbn [find]. apply elem_of_cons in Hin as [<- | Hin].
  - by rewrite (proj2 (strictEq_JStr (user m) (JStr (user m)))).
  - destruct (strictEq (JStr (user a)) (JStr (user m))) eqn:Heq.
    + apply strictEq_JStr in Heq. injection Heq as Heq.
      exfalso. apply Hfresh. rewrite Heq.
      apply list_elem_of_fmap. by exists m.
    + by apply IH.
Qed.

(** X5. In a group whose entries name each user once, the status of a
    member is reported from that member's entry: [isAdmin] is true exactly
    when the reported role is admin. *)
Theorem checkUserAdminStatus_member
    (d : Db) (req : Request) (u : Doc User) (g : Doc Group) (m : Member) :
  truthy (param req "userID") = true ->
  truthy (param req "groupID") = true ->
  userLookup d (param req "userID") = Returned (Some u) ->
  groupLookup d (param req "groupID") = Returned (Some g) ->
  NoDup (map user (members g.2)) ->
  m ∈ members g.2 -> JStr (user m) = param req "userID" ->
  (run (checkUserAdminStatus req) d).2 =
    Returned {| status := 200;
                json := Json (JObj [("isAdmin", JBool (role m =? "admin"));
                                    ("isMember", JBool true);
                                    ("role", JStr (role m));
                                    ("familialRelation", strOrNull (familialRelation m));
                                    ("groupName", JStr (name g.2))]) |}.
Proof.
  intros Hu Hg Huser Hgroup Hnodup Hin Hm.
  rewrite userLookup_eq in Huser. rewrite groupLookup_eq in Hgroup.
  rewrite checkUserAdminStatus_answer by done.
  destruct (castObjectId (param req "userID")) as [e|ku]; [done|].
  destruct (users d !! ku) as [u0|]; [|done].
  destruct (castObjectId (param req "groupID")) as [e|kg]; [done|].
  destruct (groups d !! kg) as [g0|]; [|done].
  injection Hgroup as <-. cbn [snd] in *. rewrite <- Hm.
  rewrite (find_unique_user (members g0) m Hnodup Hin).
  assert (Hadm : hasAdminEntry (JStr (user m)) (members g0) = (role m =? "admin")).
  { destruct (role m =? "admin") eqn:Hrole.
    - apply hasAdminEntry_true. exists m. by apply String.eqb_eq in Hrole.
    - destruct (hasAdminEntry (JStr (user m)) (members g0)) eqn:Hadmin; [|done].
      apply hasAdminEntry_true in Hadmin as (m' & Hin' & Hu' & Hr').
      assert (m' = m); [|subst m'; by apply String.eqb_neq in Hrole].
      pose proof (find_unique_user (members g0) m' Hnodup Hin') as Hfind'.
      rewrite Hu' in Hfind'.
      rewrite (find_unique_user (members g0) m Hnodup Hin) in Hfind'. congruence. }
  by rewrite Hadm.
Qed.

(** X20. The admin check fails closed inside [updateUserRole]: when the
    group does not exist, or its id does not cast so that the lookup
    throws, a well-formed request is answered 403, with the store as it
    was. *)
Theorem updateUserRole_fails_closed (d : Db) (req : Request) :
  let groupID := field (body req) "groupID" in
  truthy (param req "userID") = true ->
  truthy (param req "targetUserID") = true ->
  truthy (field (body req) "role") = true ->
  truthy groupID = true ->
  includes validRoles (field (body req) "role") = true ->
  groupLookup d groupID = Returned None \/ (exists e, groupLookup d groupID = Threw e) ->
  run (updateUserRole req) d =
    ({| store := d; trace := [GroupFindById groupID] |},
     Returned {| status := 403;
                 json := message "Only group admins can update user roles" |}).
Proof.
  intros groupID Hu Ht Hr Hg Hv Hlookup.
  rewrite updateUserRole_run by done. fold groupID. cbn zeta.
  rewrite groupLookup_eq in Hlookup.
  destruct (castObjectId groupID) as [e|k]; [done|].
  destruct (groups d !! k) as [g|]; [|done].
  by destruct Hlookup as [[=] | [e [=]]].
Qed.

Lemma Group_find_run (ids : list string) (w : World) :
  Group_find ids w =
    ({| store := store w; trace := (trace w ++ [GroupFind ids])%list |},
     Returned (selectIn ids (groups (store w)))).
Proof. done. Qed.

Ltac read_only :=
  unfold run, tryCatch, mbind, Async_bind;
  repeat (simpl;
          match goal with
          | |- context [User_findById ?i ?w] => rewrite (User_findById_run i w)
          | |- context [Group_findById ?i ?w] => rewrite (Group_findById_run i w)
          | |- context [User_find ?i ?w] => rewrite (User_find_run i w)
          | |- context [Group_find ?i ?w] => rewrite (Group_find_run i w)
          | |- context [isUserAdminOfGroup ?u ?g ?w] =>
              rewrite (isUserAdminOfGroup_run u g w)
          | |- context [match castObjectId ?v with _ => _ end] =>
              destruct (castObjectId v)
          | |- context [_ <$> ?m !! ?k] => destruct (m !! k)
          | |- context [match find ?q ?l with _ => _ end] => destruct (find q l)
          | |- context [match groupID ?u with _ => _ end] => destruct (groupID u)
          | |- context [if ?b then _ else _] => destruct b
          end);
  simpl; by eexists _, _.

(** X6. The handlers that only read always send an answer and leave the
    store as it was, whatever the request and the store. *)
Theorem handlers_read_only (d : Db) (req : Request) :
  let answers (h : Async Response) :=
    exists t r, run h d = ({| store := d; trace := t |}, Returned r) in
  answers (checkUserAdminStatus req)
  /\ answers (getAllUserGroups req)
  /\ answers (getUserGroup req)
  /\ answers (getUser req)
  /\ answers (getAllGroups req)
  /\ answers (getUserInfo req)
  /\ answers (getFamilyMembers req)
  /\ answers (getCurrentUserFamilyRole req)
  /\ answers (getNotificationPreferences req).
Proof.
  cbv zeta. repeat split.
  - unfold checkUserAdminStatus. read_only.
  - unfold getAllUserGroups. read_only.
  - unfold getUserGroup. read_only.
  - unfold getUser. read_only.
  - unfold getAllGroups. read_only.
  - unfold getUserInfo. read_only.
  - unfold getFamilyMembers. read_only.
  - unfold getCurrentUserFamilyRole. read_only.
  - unfold getNotificationPreferences. read_only.
Qed.

Lemma truthy_field (obj : gmap string Js) (key : string) :
  truthy (field obj key) = true -> obj !! key = Some (field obj key).
Proof. unfold field. by destruct (obj !! key). Qed.

(** [provideAdditionalUserInfo] once the six fields are truthy: one update,
    whose outcome decides the answer. *)
Lemma provideAdditionalUserInfo_run (d : Db) (req : Request) :
  let f := field (body req) in
  truthy (f "firstName") = true -> truthy (f "lastName") = true ->
  truthy (f "dateOfBirth") = true -> truthy (f "gender") = true ->
  truthy (f "weight") = true -> truthy (f "height") = true ->
  exists p,
    (forall key,
       p !! key =
         if bool_decide (key ∈ ["firstName"; "lastName"; "dateOfBirth";
                                "gender"; "weight"; "height"])
         then body req !! key else None)
    /\ run (provideAdditionalUserInfo req) d =
         match run (User_findByIdAndUpdate (param req "userID") p) d with
         | (w, Threw _) => (w, Returned None)
         | (w, Returned None) =>
             (w, Returned (Some {| status := 404; json := message "User not found" |}))
         | (w, Returned (Some u)) =>
             (w, Returned (Some {| status := 200;
                                   json := MessageAndUser
                                             "Additional info saved successfully" u |}))
         end.
Proof.
  intros f H1 H2 H3 H4 H5 H6.
  exists (<["firstName" := f "firstName"]>
            (<["lastName" := f "lastName"]>
               (<["dateOfBirth" := f "dateOfBirth"]>
                  (<["gender" := f "gender"]>
                     (<["weight" := f "weight"]>
                        (<["height" := f "height"]> ∅)))))).
  split; cycle 1.
  - unfold run, provideAdditionalUserInfo, tryCatch, mbind, Async_bind.
    fold f. rewrite H1, H2, H3, H4, H5, H6. simpl.
    destruct (User_findByIdAndUpdate _ _ _) as [w [e|[u|]]]; reflexivity.
  - intros key. subst f.
    apply truthy_field in H1, H2, H3, H4, H5, H6.
    repeat (rewrite lookup_insert; case_decide;
            [subst key; rewrite bool_decide_eq_true_2 by set_solver; done|]).
    rewrite lookup_empty, bool_decide_eq_false_2; [done|].
    intros Hin. repeat (apply elem_of_cons in Hin as [-> | Hin]); try done.
    by apply elem_of_nil in Hin.
Qed.

(** X7. When the update that [provideAdditionalUserInfo] issues throws (the
    user id does not cast, or the store rejects the values), the handler
    sends no answer at all, and the store is as it was. *)
Theorem provideAdditionalUserInfo_silent
    (d : Db) (req : Request) (p : gmap string Js) (e : string) :
  trace (run (provideAdditionalUserInfo req) d).1
  = [UserFindByIdAndUpdate (param req "userID") p] ->
  (run (User_findByIdAndUpdate (param req "userID") p) d).2 = Threw e ->
  run (provideAdditionalUserInfo req) d
  = ({| store := d; trace := [UserFindByIdAndUpdate (param req "userID") p] |},
     Returned None).
Proof.
  intros Htrace Hthrows.
  destruct (truthy (field (body req) "firstName") && truthy (field (body req) "lastName")
            && truthy (field (body req) "dateOfBirth")
            && truthy (field (body req) "gender")
            && truthy (field (body req) "weight")
            && truthy (field (body req) "height")) eqn:Hall.
  - repeat (apply andb_true_iff in Hall as [Hall ?]).
    destruct (provideAdditionalUserInfo_run d req) as (p' & _ & Hrun); try done.
    rewrite Hrun in Htrace |- *. unfold run in *.
    rewrite User_findByIdAndUpdate_run in Htrace, Hthrows |- *.
    cbn zeta in *. cbn [store trace app] in *.
    assert (p' = p) as ->.
    { destruct (castObjectId (param req "userID")) as [e'|k]; [by injection Htrace|].
      destruct (users d !! k) as [u|]; [|by injection Htrace].
      destruct (applySet p' u); by injection Htrace. }
    destruct (castObjectId (param req "userID")) as [e'|k]; [done|].
    destruct (users d !! k) as [u|]; [|done].
    by destruct (applySet p u).
  - exfalso. revert Htrace.
    unfold run, provideAdditionalUserInfo, tryCatch.
    destruct (truthy (field (body req) "firstName")); simpl; [|done].
    destruct (truthy (field (body req) "lastName")); simpl; [|done].
    destruct (truthy (field (body req) "dateOfBirth")); simpl; [|done].
    destruct (truthy (field (body req) "gender")); simpl; [|done].
    destruct (truthy (field (body req) "weight")); simpl; [|done].
    simpl in Hall. by rewrite Hall.
Qed.

(** X8. Of a complete onboarding body only the six onboarding fields reach
    the store: the one call made is an update whose [$set] holds these six
    with the values of the body, and no other key of the body. *)
Theorem provideAdditionalUserInfo_payload (d : Db) (req : Request) :
  let f := field (body req) in
  truthy (f "firstName") = true -> truthy (f "lastName") = true ->
  truthy (f "dateOfBirth") = true -> truthy (f "gender") = true ->
  truthy (f "weight") = true -> truthy (f "height") = true ->
  exists p,
    trace (run (provideAdditionalUserInfo req) d).1
    = [UserFindByIdAndUpdate (param req "userID") p]
    /\ forall key,
         p !! key =
           if bool_decide (key ∈ ["firstName"; "lastName"; "dateOfBirth";
                                  "gender"; "weight"; "height"])
           then body req !! key else None.
Proof.
  intros f H1 H2 H3 H4 H5 H6.
  destruct (provideAdditionalUserInfo_run d req) as (p & Hp & Hrun); try done.
  exists p. split; [|done].
  rewrite Hrun. unfold run. rewrite User_findByIdAndUpdate_run.
  cbn zeta. cbn [store trace app].
  destruct (castObjectId (param req "userID")) as [e'|k]; [done|].
  destruct (users d !! k) as [u|]; [|done].
  by destruct (applySet p u).
Qed.

Lemma updateUser_run (d : Db) (req : Request) :
  run (updateUser req) d =
    let updates := if truthy (field (body req) "email")
                   then delete "email" (body req) else body req in
    match run (User_findByIdAndUpdate (param req "userID") updates) d with
    | (w, Threw e) =>
        (w, Returned {| status := 500; json := Json (JObj [("error", JStr e)]) |})
    | (w, Returned None) =>
        (w, Returned {| status := 404; json := message "User not found" |})
    | (w, Returned (Some u)) =>
        (w, Returned {| status := 200; json := UserDoc u |})
    end.
Proof.
  unfold run, updateUser, tryCatch, mbind, Async_bind. cbn zeta.
  destruct (User_findByIdAndUpdate _ _ _) as [w [e|[u|]]]; reflexivity.
Qed.

Lemma getUser_run (d : Db) (req : Request) :
  run (getUser req) d =
    ({| store := d; trace := [UserFindById (param req "userID")] |},
     Returned
       match castObjectId (param req "userID") with
       | inl _ => {| status := 500; json := message "Internal server error" |}
       | inr k =>
           match users d !! k with
           | None => {| status := 404; json := message "User not found" |}
           | Some u => {| status := 200; json := UserDoc (k, u) |}
           end
       end).
Proof.
  unfold run, getUser, tryCatch, mbind, Async_bind.
  rewrite User_findById_run. simpl.
  destruct (castObjectId (param req "userID")) as [e|k]; [done|].
  by destruct (users d !! k).
Qed.

Lemma deleteUser_run (d : Db) (req : Request) :
  run (deleteUser req) d =
    match castObjectId (param req "userID") with
    | inl e =>
        ({| store := d; trace := [] |},
         Returned {| status := 500; json := Json (JObj [("error", JStr e)]) |})
    | inr k =>
        match users d !! k with
        | None =>
            ({| store := d; trace := [] |},
             Returned {| status := 404; json := message "User not found" |})
        | Some _ =>
            ({| store := {| users := delete k (users d); groups := groups d |};
                trace := [] |},
             Returned {| status := 200; json := message "User deleted successfully" |})
        end
    end.
Proof.
  unfold run, deleteUser, tryCatch, mbind, Async_bind.
  rewrite User_findByIdAndDelete_run. simpl.
  destruct (castObjectId (param req "userID")) as [e|k]; [done|].
  by destruct (users d !! k).
Qed.

(** X9. [updateUser] hands every field of the body other than [email] to
    the store as it is, whatever its name (a [groupID] or
    [notificationPreferences] in the body reaches [$set] like a name
    does); a truthy [email] is the one key it takes out. *)
Theorem updateUser_forwards_fields (d : Db) (req : Request) :
  exists p,
    trace (run (updateUser req) d).1
    = [UserFindByIdAndUpdate (param req "userID") p]
    /\ (forall key, key <> "email" -> p !! key = body req !! key)
    /\ (truthy (field (body req) "email") = true -> p !! "email" = None).
Proof.
  eexists. split; [apply updateUser_call|]. split.
  - intros key Hkey. destruct (truthy (field (body req) "email")); [|done].
    by rewrite lookup_delete_ne.
  - intros ->. apply lookup_delete_eq.
Qed.

(** X10. What [updateUser] answers with a 200 is what is stored: a
    [getUser] for the same id on the store it leaves answers 200 with the
    same document. *)
Theorem updateUser_then_getUser
    (d : Db) (req req' : Request) (w : World) (r : Response) :
  run (updateUser req) d = (w, Returned r) -> status r = 200 ->
  param req' "userID" = param req "userID" ->
  (run (getUser req') (store w)).2 = Returned r.
Proof.
  intros Hrun Hok Hsame.
  rewrite updateUser_run in Hrun. cbn zeta in Hrun. unfold run in Hrun.
  rewrite User_findByIdAndUpdate_run in Hrun. cbn zeta in Hrun.
  cbn [store trace app] in Hrun.
  rewrite getUser_run, Hsame. cbn [snd].
  destruct (castObjectId (param req "userID")) as [e|k];
    [injection Hrun as <- <-; done|].
  destruct (users d !! k) as [u|]; [|injection Hrun as <- <-; done].
  destruct (applySet _ u) as [e|u']; injection Hrun as <- <-; [done|].
  cbn [store users]. by rewrite lookup_insert_eq.
Qed.

(** X11. [updateUser] always answers; it never touches a group nor any
    user but the one addressed, and unless it answers 200 it changes
    nothing. *)
Theorem updateUser_touches_one (d : Db) (req : Request) :
  exists w r,
    run (updateUser req) d = (w, Returned r)
    /\ groups (store w) = groups d
    /\ (forall k, castObjectId (param req "userID") <> inr k ->
          users (store w) !! k = users d !! k)
    /\ (status r <> 200 -> store w = d).
Proof.
  rewrite updateUser_run. cbn zeta. unfold run.
  rewrite User_findByIdAndUpdate_run. cbn zeta. cbn [store trace app].
  destruct (castObjectId (param req "userID")) as [e|k]; [by eexists _, _|].
  destruct (users d !! k) as [u|]; [|by eexists _, _].
  destruct (applySet _ u) as [e|u']; [by eexists _, _|].
  eexists _, _. split; [reflexivity|]. cbn [store users groups status].
  split; [done|]. split; [|done].
  intros k' Hk'. rewrite lookup_insert_ne; [done|]. congruence.
Qed.

(** X12. A [deleteUser] answered 200 removes the addressed user and nothing
    else: the other users and all groups stay (member entries that refer
    to the user included), a [getUser] for the id then answers 404, and so
    does a second [deleteUser].  With any other answer the store is as it
    was. *)
Theorem deleteUser_removes_one
    (d : Db) (req req' : Request) (w : World) (r : Response) :
  run (deleteUser req) d = (w, Returned r) ->
  param req' "userID" = param req "userID" ->
  (status r = 200 ->
     exists k,
       castObjectId (param req "userID") = inr k
       /\ is_Some (users d !! k)
       /\ users (store w) = delete k (users d)
       /\ groups (store w) = groups d
       /\ (run (getUser req') (store w)).2
          = Returned {| status := 404; json := message "User not found" |}
       /\ run (deleteUser req') (store w)
          = ({| store := store w; trace := [] |},
             Returned {| status := 404; json := message "User not found" |}))
  /\ (status r <> 200 -> store w = d).
Proof.
  intros Hrun Hsame. rewrite deleteUser_run in Hrun.
  destruct (castObjectId (param req "userID")) as [e|k] eqn:Hcast;
    [by injection Hrun as <- <-|].
  destruct (users d !! k) as [u|] eqn:Hu; [|by injection Hrun as <- <-].
  injection Hrun as <- <-. split; [|done].
  intros _. exists k. cbn [store users groups].
  split; [done|]. split; [done|]. split; [done|]. split; [done|].
  rewrite getUser_run, deleteUser_run, Hsame, Hcast. cbn [store users snd].
  by rewrite lookup_delete_eq.
Qed.

(** The answer of [getFamilyMembers] to a user that has a primary group. *)
Lemma getFamilyMembers_answer
    (d : Db) (req : Request) (u : Doc User) (primary : string) :
  let requested := queryArg req "groupID" in
  let target := if truthy requested then requested else JStr primary in
  userLookup d (param req "userID") = Returned (Some u) ->
  groupID u.2 = Some primary ->
  (run (getFamilyMembers req) d).2 =
    Returned
      match castObjectId target with
      | inl e =>
          {| status := 500;
             json := Json (JObj [("message", JStr "Internal server error");
                                 ("error", JStr e)]) |}
      | inr kg =>
          match groups d !! kg with
          | None =>
              {| status := 404; json := message "Group not found or has no members" |}
          | Some g =>
              {| status := 200;
                 json := Json (JArr (map (rosterEntry (users d)) (members g))) |}
          end
      end.
Proof.
  intros requested target Hlookup Hprimary.
  rewrite userLookup_eq in Hlookup.
  unfold run, getFamilyMembers, tryCatch, mbind, Async_bind.
  rewrite User_findById_run. simpl.
  destruct (castObjectId (param req "userID")) as [e|ku]; [done|].
  injection Hlookup as Hlookup. rewrite Hlookup. simpl. rewrite Hprimary.
  fold requested target.
  rewrite Group_findById_run. simpl.
  destruct (castObjectId target) as [e|kg]; [done|].
  destruct (groups d !! kg) as [g|]; simpl; [|done].
  do 4 f_equal. apply map_ext_in. intros m Hm.
  assert (Hin : user m ∈ map user (members g)).
  { apply list_elem_of_fmap. exists m. split; [done|]. by apply list_elem_of_In. }
  unfold rosterEntry. cbn zeta.
  rewrite (userMap_lookup _ _ _ Hin).
  by destruct (users d !! user m).
Qed.

(** C5. For a user that exists and has a primary group, the answer of
    [getFamilyMembers] is that of the target group: the roster of the group
    named by the [groupID] of the query string when one is given (a truthy
    value), and of the user's primary group when none is (absent or
    empty); that group is the one looked up.  A user with no primary group
    is answered 404 "User or group not found", whatever the query string
    holds. *)
Theorem getFamilyMembers_target (d : Db) (req : Request) (u : Doc User) :
  let userID := param req "userID" in
  let requested := queryArg req "groupID" in
  let rosterOf (target : Js) : Response :=
    match groupLookup d target with
    | Returned (Some g) =>
        {| status := 200;
           json := Json (JArr (map (rosterEntry (users d)) (members g.2))) |}
    | Returned None =>
        {| status := 404; json := message "Group not found or has no members" |}
    | Threw e =>
        {| status := 500;
           json := Json (JObj [("message", JStr "Internal server error");
                               ("error", JStr e)]) |}
    end in
  userLookup d userID = Returned (Some u) ->
  (forall primary, groupID u.2 = Some primary -> truthy requested = true ->
     (run (getFamilyMembers req) d).2 = Returned (rosterOf requested)
     /\ exists rest,
          trace (run (getFamilyMembers req) d).1
          = UserFindById userID :: GroupFindById requested :: rest)
  /\ (forall primary, groupID u.2 = Some primary -> truthy requested = false ->
        (run (getFamilyMembers req) d).2 = Returned (rosterOf (JStr primary))
        /\ exists rest,
             trace (run (getFamilyMembers req) d).1
             = UserFindById userID :: GroupFindById (JStr primary) :: rest)
  /\ (groupID u.2 = None ->
        run (getFamilyMembers req) d
        = ({| store := d; trace := [UserFindById userID] |},
           Returned {| status := 404; json := message "User or group not found" |})).
Proof.
  intros userID requested rosterOf Hlookup.
  destruct (getFamilyMembers_calls d req u Hlookup) as (Hgiven & Hnone & Hmissing).
  assert (Hanswer : forall primary,
    groupID u.2 = Some primary ->
    (run (getFamilyMembers req) d).2
    = Returned (rosterOf (if truthy requested then requested else JStr primary))).
  { intros primary Hprimary.
    rewrite (getFamilyMembers_answer d req u primary Hlookup Hprimary).
    fold requested. subst rosterOf. cbn beta. rewrite groupLookup_eq.
    destruct (castObjectId (if truthy requested then requested else JStr primary))
      as [e|kg]; [done|].
    by destruct (groups d !! kg). }
  split; [|split].
  - intros primary Hprimary Htruthy. split; [|by apply (Hgiven primary)].
    rewrite (Hanswer primary Hprimary). by rewrite Htruthy.
  - intros primary Hprimary Hfalsy. split; [|by apply (Hnone primary)].
    rewrite (Hanswer primary Hprimary). by rewrite Hfalsy.
  - exact Hmissing.
Qed.

(** X18. With a group named in the query string, the roster returned does
    not depend on who asks: any two users that exist and have some primary
    group get the same answer, members of the named group or not. *)
Theorem getFamilyMembers_any_requester
    (d : Db) (req1 req2 : Request) (u1 u2 : Doc User) (p1 p2 : string) :
  userLookup d (param req1 "userID") = Returned (Some u1) ->
  groupID u1.2 = Some p1 ->
  userLookup d (param req2 "userID") = Returned (Some u2) ->
  groupID u2.2 = Some p2 ->
  truthy (queryArg req1 "groupID") = true ->
  queryArg req2 "groupID" = queryArg req1 "groupID" ->
  (run (getFamilyMembers req1) d).2 = (run (getFamilyMembers req2) d).2.
Proof.
  intros Hu1 Hp1 Hu2 Hp2 Hgiven Hsame.
  rewrite (getFamilyMembers_answer d req1 u1 p1 Hu1 Hp1).
  rewrite (getFamilyMembers_answer d req2 u2 p2 Hu2 Hp2).
  by rewrite Hsame, Hgiven.
Qed.

(** X13. Deleting a user does not take the user out of the groups: in a
    roster asked for afterwards, the entry of the deleted member is still
    there, with its role, an empty [fullName] and a [null] image. *)
Theorem deleted_member_still_listed
    (d : Db) (reqDel reqFam : Request) (w : World) (r : Response)
    (u : Doc User) (primary : string) (g : Doc Group) (i : nat) (m : Member) :
  let requested := queryArg reqFam "groupID" in
  run (deleteUser reqDel) d = (w, Returned r) -> status r = 200 ->
  castObjectId (param reqDel "userID") = inr (user m) ->
  userLookup (store w) (param reqFam "userID") = Returned (Some u) ->
  groupID u.2 = Some primary ->
  groupLookup d (if truthy requested then requested else JStr primary)
  = Returned (Some g) ->
  members g.2 !! i = Some m ->
  exists entries e,
    (run (getFamilyMembers reqFam) (store w)).2
    = Returned {| status := 200; json := Json (JArr entries) |}
    /\ length entries = length (members g.2)
    /\ entries !! i = Some e
    /\ prop "userID" e = JStr (user m)
    /\ prop "role" e = JStr (role m)
    /\ prop "fullName" e = JStr ""
    /\ prop "imageURL" e = JNull.
Proof.
  intros requested Hrun Hok Hcast Hu Hprimary Hg Hm.
  rewrite deleteUser_run, Hcast in Hrun.
  destruct (users d !! user m) as [gone|]; [|by injection Hrun as <- <-].
  injection Hrun as <- <-. cbn [store] in *.
  rewrite (getFamilyMembers_answer _ reqFam u primary Hu Hprimary).
  fold requested. rewrite groupLookup_eq in Hg. cbn [groups users].
  destruct (castObjectId (if truthy requested then requested else JStr primary))
    as [e|kg]; [done|].
  destruct (groups d !! kg) as [g0|]; [|done].
  injection Hg as <-. cbn [snd] in *.
  eexists _, (rosterEntry (delete (user m) (users d)) m).
  split; [reflexivity|]. split; [by rewrite length_map|]. split.
  { change (map ?f ?l) with (f <$> l). by rewrite list_lookup_fmap, Hm. }
  unfold rosterEntry. cbn zeta. rewrite lookup_delete_eq. by cbn.
Qed.

(** X15. The roster and [getUserInfo] agree: for a member whose profile is
    stored, the [fullName] and [imageURL] of the roster entry are the ones
    [getUserInfo] answers for that user. *)
Theorem roster_matches_getUserInfo
    (d : Db) (reqInfo reqFam : Request) (u : Doc User) (primary : string)
    (g : Doc Group) (i : nat) (m : Member) :
  let requested := queryArg reqFam "groupID" in
  castObjectId (param reqInfo "userID") = inr (user m) ->
  is_Some (users d !! user m) ->
  userLookup d (param reqFam "userID") = Returned (Some u) ->
  groupID u.2 = Some primary ->
  groupLookup d (if truthy requested then requested else JStr primary)
  = Returned (Some g) ->
  members g.2 !! i = Some m ->
  exists info entries e,
    (run (getUserInfo reqInfo) d).2 = Returned {| status := 200; json := Json info |}
    /\ (run (getFamilyMembers reqFam) d).2
       = Returned {| status := 200; json := Json (JArr entries) |}
    /\ entries !! i = Some e
    /\ prop "fullName" e = prop "fullName" info
    /\ prop "imageURL" e = prop "imageURL" info.
Proof.
  intros requested Hcast [profile Hprofile] Hu Hprimary Hg Hm.
  rewrite (getFamilyMembers_answer _ reqFam u primary Hu Hprimary).
  fold requested. rewrite groupLookup_eq in Hg.
  destruct (castObjectId (if truthy requested then requested else JStr primary))
    as [e|kg]; [done|].
  destruct (groups d !! kg) as [g0|]; [|done].
  injection Hg as <-. cbn [snd] in *.
  unfold run, getUserInfo, tryCatch, mbind, Async_bind.
  rewrite User_findById_run. simpl. rewrite Hcast, Hprofile. simpl.
  eexists _, _, (rosterEntry (users d) m).
  split; [reflexivity|]. split; [reflexivity|]. split.
  { change (map ?f ?l) with (f <$> l). by rewrite list_lookup_fmap, Hm. }
  unfold rosterEntry. cbn zeta. rewrite Hprofile. by cbn.
Qed.

Lemma getCurrentUserFamilyRole_answer (d : Db) (req : Request) :
  let userID := param req "userID" in
  let requested := queryArg req "groupID" in
  (run (getCurrentUserFamilyRole req) d).2 =
    Returned
      match castObjectId userID with
      | inl e =>
          {| status := 500;
             json := Json (JObj [("message", JStr "Internal server error");
                                 ("error", JStr e)]) |}
      | inr ku =>
          match users d !! ku ≫= groupID with
          | None => {| status := 404; json := message "User or group not found" |}
          | Some primary =>
              let target := if truthy requested then requested else JStr primary in
              match castObjectId target with
              | inl e =>
                  {| status := 500;
                     json := Json (JObj [("message", JStr "Internal server error");
                                         ("error", JStr e)]) |}
              | inr kg =>
                  match groups d !! kg with
                  | None =>
                      {| status := 404;
                         json := message "Group not found or has no members" |}
                  | Some g =>
                      match find (fun member => strictEq (JStr (user member)) userID)
                                 (members g) with
                      | None =>
                          {| status := 404;
                             json := message "User is not a member of this group" |}
                      | Some m =>
                          {| status := 200;
                             json := Json (JObj [("role", JStr (role m));
                                                 ("groupID", target)]) |}
                      end
                  end
              end
          end
      end.
Proof.
  intros userID requested.
  unfold run, getCurrentUserFamilyRole, tryCatch, mbind, Async_bind.
  fold userID requested. rewrite User_findById_run. simpl.
  destruct (castObjectId userID) as [e|ku]; [done|].
  destruct (users d !! ku) as [u|]; simpl; [|done].
  destruct (groupID u) as [primary|]; simpl; [|done].
  rewrite Group_findById_run. simpl.
  destruct (castObjectId _) as [e|kg]; [done|].
  destruct (groups d !! kg) as [g|]; simpl; [|done].
  by destruct (find _ (members g)).
Qed.

(** X14. [getCurrentUserFamilyRole] and [checkUserAdminStatus] agree: when
    the first answers 200 with a role for a group, the second, asked about
    the same user and that group, reports a member with the same role. *)
Theorem family_role_matches_status
    (d : Db) (req req' : Request) (w : World) (r : Response) (b : Js) :
  run (getCurrentUserFamilyRole req) d = (w, Returned r) ->
  status r = 200 -> json r = Json b ->
  truthy (param req "userID") = true ->
  param req' "userID" = param req "userID" ->
  param req' "groupID" = prop "groupID" b ->
  truthy (param req' "groupID") = true ->
  exists b',
    (run (checkUserAdminStatus req') d).2
    = Returned {| status := 200; json := Json b' |}
    /\ prop "isMember" b' = JBool true
    /\ prop "role" b' = prop "role" b.
Proof.
  intros Hrun Hok Hjson Hu Hsame Hgroup Hg.
  assert (Hanswer : (run (getCurrentUserFamilyRole req) d).2 = Returned r)
    by (by rewrite Hrun).
  rewrite getCurrentUserFamilyRole_answer in Hanswer. cbn zeta in Hanswer.
  rewrite checkUserAdminStatus_answer by (by rewrite ?Hsame).
  rewrite Hsame.
  destruct (castObjectId (param req "userID")) as [e|ku];
    [by injection Hanswer as <-|].
  destruct (users d !! ku) as [u|]; [|by injection Hanswer as <-].
  cbn [mbind option_bind] in Hanswer.
  destruct (groupID u) as [primary|]; [|by injection Hanswer as <-].
  set (target := if truthy (queryArg req "groupID")
                 then queryArg req "groupID" else JStr primary) in *.
  destruct (castObjectId target) as [e|kg] eqn:Hcast;
    [by injection Hanswer as <-|].
  destruct (groups d !! kg) as [g|] eqn:Hgd; [|by injection Hanswer as <-].
  destruct (find _ (members g)) as [m|] eqn:Hfind; [|by injection Hanswer as <-].
  injection Hanswer as <-. cbn [json] in Hjson. injection Hjson as <-.
  cbn in Hgroup. rewrite Hgroup, Hcast, Hgd, Hfind.
  eexists. split; [reflexivity|]. by cbn.
Qed.

Lemma getNotificationPreferences_answer (d : Db) (req : Request) :
  (run (getNotificationPreferences req) d).2 =
    Returned
      match castObjectId (param req "userID") with
      | inl e =>
          {| status := 500;
             json := Json (JObj [("message",
                                  JStr "Failed to fetch notification preferences");
                                 ("error", JStr e)]) |}
      | inr k =>
          match users d !! k with
          | None => {| status := 404; json := message "User not found" |}
          | Some u =>
              {| status := 200;
                 json := Json (prefsJson (default defaultPreferences
                                            (notificationPreferences u))) |}
          end
      end.
Proof.
  unfold run, getNotificationPreferences, tryCatch, mbind, Async_bind.
  rewrite User_findById_run. simpl.
  destruct (castObjectId (param req "userID")) as [e|k]; [done|].
  by destruct (users d !! k).
Qed.

Lemma updateNotificationPreferences_rejected (d : Db) (req : Request) :
  isBoolean (field (body req) "doNotDisturb") && isBoolean (field (body req) "newFeed")
  && isBoolean (field (body req) "newActivity") && isBoolean (field (body req) "invites")
  = false ->
  run (updateNotificationPreferences req) d =
    ({| store := d; trace := [] |},
     Returned {| status := 400;
                 json := message "Invalid preferences format. All preference values must be boolean." |}).
Proof.
  intros Hbad. unfold run, updateNotificationPreferences, tryCatch.
  destruct (isBoolean (field (body req) "doNotDisturb")); simpl; [|done].
  destruct (isBoolean (field (body req) "newFeed")); simpl; [|done].
  destruct (isBoolean (field (body req) "newActivity")); simpl; [|done].
  simpl in Hbad. by rewrite Hbad.
Qed.

(** X16. [updateNotificationPreferences] takes booleans only: when one of
    the four flags is missing or is anything but [true] or [false] (the
    string "true", the number 1, [null]), the answer is 400 and nothing is
    asked of the store. *)
Theorem updateNotificationPreferences_booleans_only
    (d : Db) (req : Request) (key : string) :
  key ∈ ["doNotDisturb"; "newFeed"; "newActivity"; "invites"] ->
  (forall flag, field (body req) key <> JBool flag) ->
  run (updateNotificationPreferences req) d =
    ({| store := d; trace := [] |},
     Returned {| status := 400;
                 json := message "Invalid preferences format. All preference values must be boolean." |}).
Proof.
  intros Hkey Hnot. apply updateNotificationPreferences_rejected.
  assert (Hfalse : isBoolean (field (body req) key) = false).
  { destruct (field (body req) key) as [| |flag| | | |]; try done.
    by destruct (Hnot flag). }
  repeat (apply elem_of_cons in Hkey as [-> | Hkey]);
    [ .. | by apply elem_of_nil in Hkey ];
    rewrite Hfalse; simpl; rewrite ?andb_false_r; done.
Qed.

(** X17. Preferences read back as written: when
    [updateNotificationPreferences] answers 200 and reports preferences, a
    [getNotificationPreferences] for the same user on the store it leaves
    answers 200 with the same preferences. *)
Theorem preferences_read_back
    (d : Db) (req req' : Request) (w : World) (r : Response) (b : Js) :
  run (updateNotificationPreferences req) d = (w, Returned r) ->
  status r = 200 -> json r = Json b ->
  prop "preferences" b <> JUndefined ->
  param req' "userID" = param req "userID" ->
  (run (getNotificationPreferences req') (store w)).2
  = Returned {| status := 200; json := Json (prop "preferences" b) |}.
Proof.
  intros Hrun Hok Hjson Hprefs Hsame.
  destruct (isBoolean (field (body req) "doNotDisturb")
            && isBoolean (field (body req) "newFeed")
            && isBoolean (field (body req) "newActivity")
            && isBoolean (field (body req) "invites")) eqn:Hbool.
  - repeat (apply andb_true_iff in Hbool as [Hbool ?]).
    rewrite getNotificationPreferences_answer, Hsame.
    revert Hrun.
    unfold run, updateNotificationPreferences, tryCatch, mbind, Async_bind.
    repeat match goal with
           | Hb : isBoolean _ = true |- _ => rewrite Hb; clear Hb
           end.
    simpl. rewrite User_findByIdAndUpdate_run. cbn zeta. cbn [store trace app].
    destruct (castObjectId (param req "userID")) as [e|k];
      [intros [= <- <-]; done|].
    destruct (users d !! k) as [u|]; [|intros [= <- <-]; done].
    destruct (applySet _ u) as [e|u']; intros [= <- <-]; [done|].
    cbn [json] in Hjson. injection Hjson as <-.
    cbn [store users]. rewrite lookup_insert_eq.
    cbn in Hprefs |- *.
    by destruct (notificationPreferences u').
  - rewrite updateNotificationPreferences_rejected in Hrun by done.
    by injection Hrun as <- <-.
Qed.

(** X19. In the answer of [getAllUserGroups], [groups] holds one object for
    each group that is stored under one of the listed ids, once each, with
    its stored name: an id listed twice gives one object, an id of no
    stored group gives none. *)
Theorem getAllUserGroups_groups (d : Db) (req : Request) (u : Doc User) :
  userLookup d (param req "userID") = Returned (Some u) ->
  exists answer ids found,
    (run (getAllUserGroups req) d).2
    = Returned {| status := 200; json := Json answer |}
    /\ prop "groupIDs" answer = JArr (map JStr ids)
    /\ prop "groups" answer
       = JArr (map (fun kg : string * Group =>
                      JObj [("id", JStr kg.1); ("name", JStr (name kg.2))]) found)
    /\ NoDup (map fst found)
    /\ forall k g, (k, g) ∈ found <-> k ∈ ids /\ groups d !! k = Some g.
Proof.
  intros Hlookup. rewrite userLookup_eq in Hlookup.
  unfold run, getAllUserGroups, tryCatch, mbind, Async_bind.
  rewrite User_findById_run. simpl.
  destruct (castObjectId (param req "userID")) as [e|ku]; [done|].
  injection Hlookup as Hlookup. rewrite Hlookup. simpl.
  rewrite push_entry_ids.
  set (ids := (_ ++ map entryGroupID (additionalGroups u.2))%list).
  eexists _, ids, (selectIn ids (groups d)).
  split; [reflexivity|]. split; [reflexivity|]. split; [reflexivity|].
  unfold selectIn. split; [apply NoDup_fst_map_to_list|].
  intros k g. rewrite elem_of_map_to_list, map_lookup_filter_Some.
  cbn [fst]. by split; intros [? ?].
Qed.

End Further.

(** * The further properties on the sample store *)

Lemma updateUserRole_success_sample :
  groupLookup (H := plainStore) sampleDb (field (body promoteRequest) "groupID")
  = Returned (Some ("g1", family))
  /\ exists w g',
       (run (updateUserRole (H := plainStore) promoteRequest) sampleDb).1 = w
       /\ users (store w) = users sampleDb
       /\ groups (store w) !! "g1" = Some g'
       /\ length (members g') = length (members family).
Proof.
  split; [reflexivity|].
  destruct (@updateUserRole_success plainStore sampleDb promoteRequest
              "g1" "admin" family 1
              {| user := "u2"; role := "caregiver"; familialRelation := Some "" |})
    as (w & g' & Hrun & Husers & _ & Hg' & _ & Hlen & _); try reflexivity.
  - by left.
  - exists {| user := "u1"; role := "admin"; familialRelation := Some "mother" |}.
    split; [left | split; reflexivity].
  - intros [|j] m Hj; [|lia]. intros [= <-]. discriminate.
  - discriminate.
  - exists w, g'. rewrite Hrun. by repeat split.
Defined.

Lemma updateUserRole_caller_stays_admin_sample :
  (run (isUserAdminOfGroup (H := plainStore) (param promoteRequest "userID") (JStr "g1"))
       sampleDb).2 = Returned true
  /\ (run (isUserAdminOfGroup (H := plainStore) (param promoteRequest "userID") (JStr "g1"))
          (store (run (updateUserRole (H := plainStore) promoteRequest) sampleDb).1)).2
     = Returned true.
Proof.
  split; [reflexivity|].
  exact (@updateUserRole_caller_stays_admin plainStore sampleDb promoteRequest
           (JStr "g1") eq_refl).
Defined.

Lemma role_update_then_status_sample :
  exists w r b,
    run (updateUserRole (H := plainStore) promoteRequest) sampleDb = (w, Returned r)
    /\ status r = 200
    /\ (run (checkUserAdminStatus (H := plainStore) bobStatusRequest) (store w)).2
       = Returned {| status := 200; json := Json b |}
    /\ prop "role" b = JStr "admin"
    /\ prop "isAdmin" b = JBool true.
Proof.
  eexists _, _. 
  destruct (@role_update_then_status plainStore sampleDb promoteRequest
              bobStatusRequest _ _ ("u2", bob) eq_refl eq_refl eq_refl eq_refl eq_refl)
    as (b & Hcheck & _ & Hrole & Hadmin).
  exists b. split; [reflexivity|]. split; [reflexivity|].
  split; [exact Hcheck|]. split; [exact Hrole | exact (Hadmin eq_refl)].
Defined.

Lemma checkUserAdminStatus_member_sample :
  NoDup (map user (members family))
  /\ (run (checkUserAdminStatus (H := plainStore) aliceStatusRequest) sampleDb).2
     = Returned {| status := 200;
                   json := Json (JObj [("isAdmin", JBool true);
                                       ("isMember", JBool true);
                                       ("role", JStr "admin");
                                       ("familialRelation", JStr "mother");
                                       ("groupName", JStr "Family")]) |}.
Proof.
  assert (Hnodup : NoDup (map user (members family))).
  { cbn. repeat (apply NoDup_cons; split;
                 [intros Hin; repeat (apply elem_of_cons in Hin as [[=] | Hin]);
                  by apply elem_of_nil in Hin|]).
    apply NoDup_nil_2. }
  split; [exact Hnodup|].
  apply (@checkUserAdminStatus_member plainStore sampleDb aliceStatusRequest
           ("u1", alice) ("g1", family)
           {| user := "u1"; role := "admin"; familialRelation := Some "mother" |});
    try reflexivity; [exact Hnodup | by left].
Defined.

Lemma updateUserRole_fails_closed_sample :
  groupLookup (H := plainStore) sampleDb (field (body noSuchGroupRequest) "groupID")
  = Returned None
  /\ run (updateUserRole (H := plainStore) noSuchGroupRequest) sampleDb
     = ({| store := sampleDb; trace := [GroupFindById (JStr "g9")] |},
        Returned {| status := 403;
                    json := message "Only group admins can update user roles" |}).
Proof.
  split; [reflexivity|].
  exact (@updateUserRole_fails_closed plainStore sampleDb noSuchGroupRequest
           eq_refl eq_refl eq_refl eq_refl eq_refl (or_introl eq_refl)).
Defined.

Lemma provideAdditionalUserInfo_silent_sample :
  exists p,
    (run (User_findByIdAndUpdate (H := plainStore) (param onboardingRequest "userID") p)
         sampleDb).2 = Threw "Cast to ObjectId failed"
    /\ run (provideAdditionalUserInfo (H := plainStore) onboardingRequest) sampleDb
       = ({| store := sampleDb;
             trace := [UserFindByIdAndUpdate (param onboardingRequest "userID") p] |},
          Returned None).
Proof.
  eexists. split; [reflexivity|].
  exact (@provideAdditionalUserInfo_silent plainStore sampleDb onboardingRequest
           _ "Cast to ObjectId failed" eq_refl eq_refl).
Defined.

Lemma provideAdditionalUserInfo_payload_sample :
  body onboardingRequest !! "email" = Some (JStr "other@example.org")
  /\ exists p,
       trace (run (provideAdditionalUserInfo (H := plainStore) onboardingRequest)
                  sampleDb).1
       = [UserFindByIdAndUpdate (param onboardingRequest "userID") p]
       /\ p !! "email" = None
       /\ p !! "weight" = Some (JNum 60).
Proof.
  split; [reflexivity|].
  destruct (@provideAdditionalUserInfo_payload plainStore sampleDb onboardingRequest
              eq_refl eq_refl eq_refl eq_refl eq_refl eq_refl) as (p & Htrace & Hp).
  exists p. split; [exact Htrace|].
  split; [exact (Hp "email") | exact (Hp "weight")].
Defined.

Lemma updateUser_then_getUser_sample :
  exists w r,
    run (updateUser (H := plainStore) renameRequest) sampleDb = (w, Returned r)
    /\ status r = 200
    /\ (run (getUser (H := plainStore) bobRequest) (store w)).2 = Returned r.
Proof.
  eexists _, _. split; [reflexivity|]. split; [reflexivity|].
  exact (@updateUser_then_getUser plainStore sampleDb renameRequest bobRequest
           _ _ eq_refl eq_refl eq_refl).
Defined.

Lemma deleteUser_removes_one_sample :
  exists w r,
    run (deleteUser (H := plainStore) bobRequest) sampleDb = (w, Returned r)
    /\ status r = 200
    /\ users (store w) !! "u2" = None
    /\ groups (store w) = groups sampleDb
    /\ (run (getUser (H := plainStore) bobRequest) (store w)).2
       = Returned {| status := 404; json := message "User not found" |}.
Proof.
  eexists _, _. split; [reflexivity|]. split; [reflexivity|].
  destruct (@deleteUser_removes_one plainStore sampleDb bobRequest bobRequest
              _ _ eq_refl eq_refl) as [Hdeleted _].
  destruct (Hdeleted eq_refl) as (k & Hcast & _ & Husers & Hgroups & Hget & _).
  injection Hcast as <-.
  split; [by rewrite Husers, lookup_delete_eq|].
  split; [exact Hgroups | exact Hget].
Defined.

Lemma deleted_member_still_listed_sample :
  exists w r entries e,
    run (deleteUser (H := plainStore) bobRequest) sampleDb = (w, Returned r)
    /\ status r = 200
    /\ (run (getFamilyMembers (H := plainStore) rosterRequest) (store w)).2
       = Returned {| status := 200; json := Json (JArr entries) |}
    /\ entries !! 1 = Some e
    /\ prop "userID" e = JStr "u2"
    /\ prop "role" e = JStr "caregiver"
    /\ prop "fullName" e = JStr "".
Proof.
  eexists _, _.
  destruct (@deleted_member_still_listed plainStore sampleDb bobRequest rosterRequest
              _ _ ("u1", alice) "g1" ("g1", family) 1
              {| user := "u2"; role := "caregiver"; familialRelation := Some "" |}
              eq_refl eq_refl eq_refl eq_refl eq_refl eq_refl eq_refl)
    as (entries & e & Hroster & _ & He & Hid & Hrole & Hname & _).
  exists entries, e. split; [reflexivity|]. split; [reflexivity|].
  by repeat split.
Defined.

Lemma family_role_matches_status_sample :
  exists w r b b',
    run (getCurrentUserFamilyRole (H := plainStore) rosterRequest) sampleDb
    = (w, Returned r)
    /\ status r = 200 /\ json r = Json b
    /\ prop "groupID" b = JStr "g1"
    /\ (run (checkUserAdminStatus (H := plainStore) aliceStatusRequest) sampleDb).2
       = Returned {| status := 200; json := Json b' |}
    /\ prop "role" b' = prop "role" b.
Proof.
  eexists _, _, _.
  destruct (@family_role_matches_status plainStore sampleDb rosterRequest
              aliceStatusRequest _ _ _ eq_refl eq_refl eq_refl eq_refl eq_refl
              eq_refl eq_refl) as (b' & Hcheck & _ & Hrole).
  exists b'. split; [reflexivity|]. split; [reflexivity|]. split; [reflexivity|].
  split; [reflexivity|]. split; [exact Hcheck | exact Hrole].
Defined.

Lemma roster_matches_getUserInfo_sample :
  exists info entries e,
    (run (getUserInfo (H := plainStore) bobRequest) sampleDb).2
    = Returned {| status := 200; json := Json info |}
    /\ prop "fullName" info = JStr "Bob"
    /\ (run (getFamilyMembers (H := plainStore) rosterRequest) sampleDb).2
       = Returned {| status := 200; json := Json (JArr entries) |}
    /\ entries !! 1 = Some e
    /\ prop "fullName" e = prop "fullName" info
    /\ prop "imageURL" e = prop "imageURL" info.
Proof.
  destruct (@roster_matches_getUserInfo plainStore sampleDb bobRequest rosterRequest
              ("u1", alice) "g1" ("g1", family) 1
              {| user := "u2"; role := "caregiver"; familialRelation := Some "" |}
              eq_refl (ex_intro _ bob eq_refl) eq_refl eq_refl eq_refl eq_refl)
    as (info & entries & e & Hinfo & Hroster & He & Hname & Himage).
  exists info, entries, e. split; [exact Hinfo|].
  split; [|by repeat split].
  vm_compute in Hinfo. by injection Hinfo as <-.
Defined.

Lemma updateNotificationPreferences_booleans_only_sample :
  field (body textFlagRequest) "doNotDisturb" = JStr "true"
  /\ run (updateNotificationPreferences (H := plainStore) textFlagRequest) sampleDb
     = ({| store := sampleDb; trace := [] |},
        Returned {| status := 400;
                    json := message "Invalid preferences format. All preference values must be boolean." |}).
Proof.
  split; [reflexivity|].
  apply (@updateNotificationPreferences_booleans_only plainStore sampleDb
           textFlagRequest "doNotDisturb"); [by left|].
  intros flag. discriminate.
Defined.

Lemma preferences_read_back_sample :
  exists w r,
    run (updateNotificationPreferences (H := prefsStore) quietRequest) sampleDb
    = (w, Returned r)
    /\ status r = 200
    /\ (run (getNotificationPreferences (H := prefsStore) rosterRequest) (store w)).2
       = Returned {| status := 200;
                     json := Json (JObj [("doNotDisturb", JBool true);
                                         ("newFeed", JBool false);
                                         ("newActivity", JBool true);
                                         ("invites", JBool false)]) |}.
Proof.
  eexists _, _. split; [reflexivity|]. split; [reflexivity|].
  refine (@preferences_read_back prefsStore sampleDb quietRequest rosterRequest
            _ _ _ eq_refl eq_refl eq_refl _ eq_refl).
  discriminate.
Defined.

Lemma getFamilyMembers_any_requester_sample :
  truthy (queryArg overrideRequest "groupID") = true
  /\ param overrideRequest "userID" <> param bobOverrideRequest "userID"
  /\ (run (getFamilyMembers (H := plainStore) overrideRequest) sampleDb).2
     = (run (getFamilyMembers (H := plainStore) bobOverrideRequest) sampleDb).2.
Proof.
  split; [reflexivity|]. split; [discriminate|].
  exact (@getFamilyMembers_any_requester plainStore sampleDb overrideRequest
           bobOverrideRequest ("u1", alice) ("u2", bob) "g1" "g1"
           eq_refl eq_refl eq_refl eq_refl eq_refl eq_refl).
Defined.

Lemma getAllUserGroups_groups_sample :
  exists answer ids found,
    (run (getAllUserGroups (H := plainStore) rosterRequest) sampleDb).2
    = Returned {| status := 200; json := Json answer |}
    /\ prop "groupIDs" answer = JArr (map JStr ids)
    /\ ids = ["g1"; "g2"; "g1"]
    /\ NoDup (map fst found)
    /\ forall k g, (k, g) ∈ found <-> k ∈ ids /\ groups sampleDb !! k = Some g.
Proof.
  destruct (@getAllUserGroups_groups plainStore sampleDb rosterRequest
              ("u1", alice) eq_refl)
    as (answer & ids & found & Hrun & Hids & _ & Hnodup & Hfound).
  exists answer, ids, found. split; [exact Hrun|]. split; [exact Hids|].
  split; [|split; [exact Hnodup | exact Hfound]].
  vm_compute in Hrun. injection Hrun as <-. cbn in Hids.
  injection Hids as Hids.
  destruct ids as [|a [|b [|c [|? ?]]]]; try discriminate.
  by injection Hids as -> -> ->.
Defined.

(** The three cases of the target group on the sample store: a query
    string that names the second group, none, and a user with no primary
    group. *)
Lemma getFamilyMembers_target_sample :
  (run (getFamilyMembers (H := plainStore) overrideRequest) sampleDb).2
  = Returned {| status := 200;
                json := Json (JArr (map (rosterEntry (users sampleDb))
                                        (members friends))) |}
  /\ (run (getFamilyMembers (H := plainStore) rosterRequest) sampleDb).2
     = Returned {| status := 200;
                   json := Json (JArr (map (rosterEntry (users sampleDb))
                                           (members family))) |}
  /\ run (getFamilyMembers (H := plainStore) noGroupRequest) sampleDb
     = ({| store := sampleDb; trace := [UserFindById (JStr "u3")] |},
        Returned {| status := 404; json := message "User or group not found" |}).
Proof.
  destruct (@getFamilyMembers_target plainStore sampleDb overrideRequest
              ("u1", alice) eq_refl) as (Hgiven & _ & _).
  destruct (@getFamilyMembers_target plainStore sampleDb rosterRequest
              ("u1", alice) eq_refl) as (_ & Hnone & _).
  destruct (@getFamilyMembers_target plainStore sampleDb noGroupRequest
              ("u3", carol) eq_refl) as (_ & _ & Hmissing).
  split; [exact (proj1 (Hgiven "g1" eq_refl eq_refl))|].
  split; [exact (proj1 (Hnone "g1" eq_refl eq_refl))|].
  exact (Hmissing eq_refl).
Defined.

(** [trim] on a name between a no-break space and a line separator. *)
Example trim_unicode_spaces :
  trim (bytes ["194"; "160"; " "]%char ++ "Ann Lee"
        ++ bytes ["009"; "226"; "128"; "168"]%char)
  = "Ann Lee".
Proof. reflexivity. Qed.
